(** * unitCell: property resolution and derived quantities of a unit cell

    A shallow embedding of [src/unitCell.py] (class [unitCell]).

    Conventions of the embedding:
    - a Python number ([int] or [float]) is an exact rational [Q]; binary
      rounding and overflow of floating point are not modelled, decimal
      formatting ([{:f}], [{:e}]) and the integer cast of numpy are;
    - a Python exception is a value of [exn]; a method is a computation in
      the monad [M], which threads the object, the store of list objects
      and what was printed, and keeps the effects made before a raise;
    - [eval], and sympy's [integrate], are parameters of the development. *)

From Stdlib Require Import Ascii ZArith QArith Qround Qabs Qpower Reals Qreals Psatz.
From stdpp Require Import base strings gmap list pretty.

Local Open Scope Z_scope.
Local Open Scope Q_scope.

(** ** Numbers and their decimal formatting *)

(** Rounding to the nearest integer, ties to the even one: the rounding of
    Python's number formatting. *)
Definition round_half_even (q : Q) : Z :=
  let f := Qfloor q in
  match Qcompare (q - inject_Z f) (1 # 2) with
  | Lt => f
  | Gt => (f + 1)%Z
  | Eq => if Z.even f then f else (f + 1)%Z
  end.

(** [pad0 n s]: [s] padded with zeros on the left up to [n] characters. *)
Definition pad0 (n : nat) (s : string) : string :=
  String.concat "" (replicate (n - String.length s) "0") +:+ s.

(** The digits of a fixed-point number given in units of [10^-6]:
    integer part, point, six decimals. *)
Definition digits6 (units : Z) : string :=
  pretty (Z.abs units / 1000000)%Z +:+ "." +:+
  pad0 6 (pretty (Z.abs units mod 1000000)%Z).

Definition sign_text (q : Q) : string :=
  if Qlt_le_dec q 0 then "-" else "".

(** ['{:f}'.format(q)]: six decimals. [units_f q] is the printed number in
    units of [10^-6], [value_f q] the number the text denotes. *)
Definition units_f (q : Q) : Z := round_half_even (q * 1000000).

Definition format_f (q : Q) : string :=
  sign_text q +:+ digits6 (units_f q).

Definition value_f (q : Q) : Q := Qred (units_f q # 1000000).

(** [ilog10 n]: the number of decimal digits of [n >= 1], minus one. *)
Fixpoint ilog10_aux (fuel : nat) (n : Z) : Z :=
  match fuel with
  | O => 0%Z
  | S fuel' =>
      if (n <? 10)%Z then 0%Z else (1 + ilog10_aux fuel' (n / 10))%Z
  end.

Definition ilog10 (n : Z) : Z :=
  ilog10_aux (S (Z.to_nat (Z.log2 n))) n.

Definition pow10 (k : Z) : Q := Qpower 10 k.

(** The decimal exponent of [a > 0]: the [k] with [10^k <= a < 10^(k+1)]. *)
Definition exponent10 (a : Q) : Z :=
  let k := (ilog10 (Qnum a) - ilog10 (Zpos (Qden a)))%Z in
  if Qle_bool (pow10 k) a then k else (k - 1)%Z.

(** ['{:e}'.format(q)]: one digit, six decimals and the exponent.
    [parts_e q] is the mantissa in units of [10^-6] and the exponent. *)
Definition parts_e (q : Q) : Z * Z :=
  if Qeq_bool q 0 then (0%Z, 0%Z)
  else
    let a := Qabs q in
    let e := exponent10 a in
    let m := round_half_even (a / pow10 (e - 6)) in
    if (m =? 10000000)%Z then (1000000%Z, (e + 1)%Z) else (m, e).

Definition format_e (q : Q) : string :=
  let '(m, e) := parts_e q in
  sign_text q +:+ digits6 m +:+ "e" +:+
  (if (e <? 0)%Z then "-" else "+") +:+ pad0 2 (pretty (Z.abs e)).

Definition value_e (q : Q) : Q :=
  let '(m, e) := parts_e q in
  Qred ((if Qlt_le_dec q 0 then -1 else 1) * inject_Z m * pow10 (e - 6)).

(** ** Python values *)

(** Bodies of the function objects this module builds itself. *)
Inductive expr : Type :=
| ENum (c : Q)
| EVar (x : string)
| EAdd (a b : expr)
| EMul (a b : expr).

Inductive pyval : Type :=
| VInt (z : Z)
| VFloat (q : Q)
| VStr (s : string)
| VList (items : list pyval)
| VLambda (param : string) (body : expr)
| VFunction (name : string)
| VObject (repr : string).

(** [inspect.isfunction] *)
Definition isfunction (v : pyval) : bool :=
  match v with
  | VLambda _ _ | VFunction _ => true
  | _ => false
  end.

(** The value of an [int] or a [float]; [None] for every other type:
    [isinstance(v, (int, float))]. *)
Definition number (v : pyval) : option Q :=
  match v with
  | VInt z => Some (inject_Z z)
  | VFloat q => Some q
  | _ => None
  end.



(** [eval] of the text ['lambda T: <c>'], [c] a decimal number. *)
Definition lambda_const (c : Q) : pyval := VLambda "T" (ENum c).

(** [eval] of the text ['lambda strain: <c>*(strain+1)'], [c] a decimal
    number. *)
Definition lambda_scaled (c : Q) : pyval :=
  VLambda "strain" (EMul (ENum c) (EAdd (EVar "strain") (ENum 1))).

(** ** Exceptions and outcomes *)

Inductive exn : Type :=
| ValueError (msg : string)
| ZeroDivisionError
| IndexError
| KeyError (key : option string)
| Exception (cls msg : string).

(** [str(e)] *)
Definition exn_str (e : exn) : string :=
  match e with
  | ValueError msg => msg
  | ZeroDivisionError => "division by zero"
  | IndexError => "list index out of range"
  | KeyError (Some k) => "'" +:+ k +:+ "'"
  | KeyError None => "None"
  | Exception _ msg => msg
  end.

Inductive outcome (A : Type) : Type :=
| Returned (a : A)
| Raised (e : exn).
Arguments Returned {A} a.
Arguments Raised {A} e.

(** True division of Python numbers. *)
Definition py_div (a b : Q) : outcome Q :=
  if Qeq_bool b 0 then Raised ZeroDivisionError else Returned (a / b).

(** ** numpy arrays *)

Inductive dtype : Type := int64 | float64.

Record ndarray : Type := NdArray { nd_dtype : dtype; nd_items : list Q }.

(** [np.array([0])]: a list of Python ints gives an array of integers. *)
Definition np_array_int (items : list Z) : ndarray :=
  NdArray int64 (inject_Z <$> items).

(** The value an array of type [t] keeps of [v]: an integer array drops the
    fraction (and has the least integer for what is out of its range). *)
Definition np_cast (t : dtype) (v : Q) : Q :=
  match t with
  | float64 => v
  | int64 =>
      let z := (Qnum v ÷ Zpos (Qden v))%Z in
      if ((- 2 ^ 63 <=? z) && (z <? 2 ^ 63))%Z then inject_Z z
      else inject_Z (- 2 ^ 63)
  end.

(** [a[i] = v] *)
Definition nd_setitem (a : ndarray) (i : nat) (v : Q) : outcome ndarray :=
  if (i <? length (nd_items a))%nat
  then Returned (NdArray (nd_dtype a) (<[i := np_cast (nd_dtype a) v]> (nd_items a)))
  else Raised IndexError.




(** [numericalunits] after [reset_units('SI')]. *)
Definition angstrom : Q := 1 # 10000000000.

(** ** The unit cell *)

(** Modelled from the spec: the atom class is not part of this file; an atom
    is "an opaque collaborator exposing [id], [name], [mass]". *)
Record atom : Type := Atom {
  atom_ID : string;
  atom_name : string;
  atom_mass : Q
}.

(** The attributes of a [unitCell] object. The four attributes of the
    integrated properties exist only once they were read or set, and hold
    references to list objects of the store. *)
Record unitCell : Type := UnitCell {
  ID : string;
  name : string;
  cAxis : Q;
  aAxis : Q;
  bAxis : Q;
  atoms : list (atom * pyval * string);
  numAtoms : nat;
  mass : Q;
  density : Q;
  springConst : ndarray;
  debWalFac : Q;
  _soundVel : Q;
  phononDamping : Q;
  optPenDepth : Q;
  optRefIndex : pyval;
  optRefIndexPerStrain : pyval;
  heatCapacity : list pyval;
  heatCapacityStr : list string;
  thermCond : list pyval;
  thermCondStr : list string;
  linThermExp : list pyval;
  linThermExpStr : list string;
  subSystemCoupling : list pyval;
  subSystemCouplingStr : list string;
  numSubSystems : nat;
  area : Q;
  volume : Q;
  _intHeatCapacity : option positive;
  intHeatCapacityStr : option positive;
  _intLinThermExp : option positive;
  intLinThermExpStr : option positive
}.

Definition set_ID (v : string) (e : unitCell) : unitCell :=
  UnitCell v (name e) (cAxis e) (aAxis e) (bAxis e) (atoms e) (numAtoms e)
    (mass e) (density e) (springConst e) (debWalFac e) (_soundVel e)
    (phononDamping e) (optPenDepth e) (optRefIndex e) (optRefIndexPerStrain e)
    (heatCapacity e) (heatCapacityStr e) (thermCond e) (thermCondStr e)
    (linThermExp e) (linThermExpStr e) (subSystemCoupling e)
    (subSystemCouplingStr e) (numSubSystems e) (area e) (volume e)
    (_intHeatCapacity e) (intHeatCapacityStr e) (_intLinThermExp e)
    (intLinThermExpStr e).

Definition set_name (v : string) (e : unitCell) : unitCell :=
  UnitCell (ID e) v (cAxis e) (aAxis e) (bAxis e) (atoms e) (numAtoms e)
    (mass e) (density e) (springConst e) (debWalFac e) (_soundVel e)
    (phononDamping e) (optPenDepth e) (optRefIndex e) (optRefIndexPerStrain e)
    (heatCapacity e) (heatCapacityStr e) (thermCond e) (thermCondStr e)
    (linThermExp e) (linThermExpStr e) (subSystemCoupling e)
    (subSystemCouplingStr e) (numSubSystems e) (area e) (volume e)
    (_intHeatCapacity e) (intHeatCapacityStr e) (_intLinThermExp e)
    (intLinThermExpStr e).

Definition set_cAxis (v : Q) (e : unitCell) : unitCell :=
  UnitCell (ID e) (name e) v (aAxis e) (bAxis e) (atoms e) (numAtoms e)
    (mass e) (density e) (springConst e) (debWalFac e) (_soundVel e)
    (phononDamping e) (optPenDepth e) (optRefIndex e) (optRefIndexPerStrain e)
    (heatCapacity e) (heatCapacityStr e) (thermCond e) (thermCondStr e)
    (linThermExp e) (linThermExpStr e) (subSystemCoupling e)
    (subSystemCouplingStr e) (numSubSystems e) (area e) (volume e)
    (_intHeatCapacity e) (intHeatCapacityStr e) (_intLinThermExp e)
    (intLinThermExpStr e).

Definition set_aAxis (v : Q) (e : unitCell) : unitCell :=
  UnitCell (ID e) (name e) (cAxis e) v (bAxis e) (atoms e) (numAtoms e)
    (mass e) (density e) (springConst e) (debWalFac e) (_soundVel e)
    (phononDamping e) (optPenDepth e) (optRefIndex e) (optRefIndexPerStrain e)
    (heatCapacity e) (heatCapacityStr e) (thermCond e) (thermCondStr e)
    (linThermExp e) (linThermExpStr e) (subSystemCoupling e)
    (subSystemCouplingStr e) (numSubSystems e) (area e) (volume e)
    (_intHeatCapacity e) (intHeatCapacityStr e) (_intLinThermExp e)
    (intLinThermExpStr e).

Definition set_bAxis (v : Q) (e : unitCell) : unitCell :=
  UnitCell (ID e) (name e) (cAxis e) (aAxis e) v (atoms e) (numAtoms e)
    (mass e) (density e) (springConst e) (debWalFac e) (_soundVel e)
    (phononDamping e) (optPenDepth e) (optRefIndex e) (optRefIndexPerStrain e)
    (heatCapacity e) (heatCapacityStr e) (thermCond e) (thermCondStr e)
    (linThermExp e) (linThermExpStr e) (subSystemCoupling e)
    (subSystemCouplingStr e) (numSubSystems e) (area e) (volume e)
    (_intHeatCapacity e) (intHeatCapacityStr e) (_intLinThermExp e)
    (intLinThermExpStr e).

Definition set_atoms (v : list (atom * pyval * string)) (e : unitCell) : unitCell :=
  UnitCell (ID e) (name e) (cAxis e) (aAxis e) (bAxis e) v (numAtoms e)
    (mass e) (density e) (springConst e) (debWalFac e) (_soundVel e)
    (phononDamping e) (optPenDepth e) (optRefIndex e) (optRefIndexPerStrain e)
    (heatCapacity e) (heatCapacityStr e) (thermCond e) (thermCondStr e)
    (linThermExp e) (linThermExpStr e) (subSystemCoupling e)
    (subSystemCouplingStr e) (numSubSystems e) (area e) (volume e)
    (_intHeatCapacity e) (intHeatCapacityStr e) (_intLinThermExp e)
    (intLinThermExpStr e).

Definition set_numAtoms (v : nat) (e : unitCell) : unitCell :=
  UnitCell (ID e) (name e) (cAxis e) (aAxis e) (bAxis e) (atoms e) v (mass e)
    (density e) (springConst e) (debWalFac e) (_soundVel e) (phononDamping e)
    (optPenDepth e) (optRefIndex e) (optRefIndexPerStrain e) (heatCapacity e)
    (heatCapacityStr e) (thermCond e) (thermCondStr e) (linThermExp e)
    (linThermExpStr e) (subSystemCoupling e) (subSystemCouplingStr e)
    (numSubSystems e) (area e) (volume e) (_intHeatCapacity e)
    (intHeatCapacityStr e) (_intLinThermExp e) (intLinThermExpStr e).

Definition set_mass (v : Q) (e : unitCell) : unitCell :=
  UnitCell (ID e) (name e) (cAxis e) (aAxis e) (bAxis e) (atoms e)
    (numAtoms e) v (density e) (springConst e) (debWalFac e) (_soundVel e)
    (phononDamping e) (optPenDepth e) (optRefIndex e) (optRefIndexPerStrain e)
    (heatCapacity e) (heatCapacityStr e) (thermCond e) (thermCondStr e)
    (linThermExp e) (linThermExpStr e) (subSystemCoupling e)
    (subSystemCouplingStr e) (numSubSystems e) (area e) (volume e)
    (_intHeatCapacity e) (intHeatCapacityStr e) (_intLinThermExp e)
    (intLinThermExpStr e).

Definition set_density (v : Q) (e : unitCell) : unitCell :=
  UnitCell (ID e) (name e) (cAxis e) (aAxis e) (bAxis e) (atoms e)
    (numAtoms e) (mass e) v (springConst e) (debWalFac e) (_soundVel e)
    (phononDamping e) (optPenDepth e) (optRefIndex e) (optRefIndexPerStrain e)
    (heatCapacity e) (heatCapacityStr e) (thermCond e) (thermCondStr e)
    (linThermExp e) (linThermExpStr e) (subSystemCoupling e)
    (subSystemCouplingStr e) (numSubSystems e) (area e) (volume e)
    (_intHeatCapacity e) (intHeatCapacityStr e) (_intLinThermExp e)
    (intLinThermExpStr e).

Definition set_springConst (v : ndarray) (e : unitCell) : unitCell :=
  UnitCell (ID e) (name e) (cAxis e) (aAxis e) (bAxis e) (atoms e)
    (numAtoms e) (mass e) (density e) v (debWalFac e) (_soundVel e)
    (phononDamping e) (optPenDepth e) (optRefIndex e) (optRefIndexPerStrain e)
    (heatCapacity e) (heatCapacityStr e) (thermCond e) (thermCondStr e)
    (linThermExp e) (linThermExpStr e) (subSystemCoupling e)
    (subSystemCouplingStr e) (numSubSystems e) (area e) (volume e)
    (_intHeatCapacity e) (intHeatCapacityStr e) (_intLinThermExp e)
    (intLinThermExpStr e).

Definition set_debWalFac (v : Q) (e : unitCell) : unitCell :=
  UnitCell (ID e) (name e) (cAxis e) (aAxis e) (bAxis e) (atoms e)
    (numAtoms e) (mass e) (density e) (springConst e) v (_soundVel e)
    (phononDamping e) (optPenDepth e) (optRefIndex e) (optRefIndexPerStrain e)
    (heatCapacity e) (heatCapacityStr e) (thermCond e) (thermCondStr e)
    (linThermExp e) (linThermExpStr e) (subSystemCoupling e)
    (subSystemCouplingStr e) (numSubSystems e) (area e) (volume e)
    (_intHeatCapacity e) (intHeatCapacityStr e) (_intLinThermExp e)
    (intLinThermExpStr e).

Definition set_soundVel (v : Q) (e : unitCell) : unitCell :=
  UnitCell (ID e) (name e) (cAxis e) (aAxis e) (bAxis e) (atoms e)
    (numAtoms e) (mass e) (density e) (springConst e) (debWalFac e) v
    (phononDamping e) (optPenDepth e) (optRefIndex e) (optRefIndexPerStrain e)
    (heatCapacity e) (heatCapacityStr e) (thermCond e) (thermCondStr e)
    (linThermExp e) (linThermExpStr e) (subSystemCoupling e)
    (subSystemCouplingStr e) (numSubSystems e) (area e) (volume e)
    (_intHeatCapacity e) (intHeatCapacityStr e) (_intLinThermExp e)
    (intLinThermExpStr e).

Definition set_phononDamping (v : Q) (e : unitCell) : unitCell :=
  UnitCell (ID e) (name e) (cAxis e) (aAxis e) (bAxis e) (atoms e)
    (numAtoms e) (mass e) (density e) (springConst e) (debWalFac e)
    (_soundVel e) v (optPenDepth e) (optRefIndex e) (optRefIndexPerStrain e)
    (heatCapacity e) (heatCapacityStr e) (thermCond e) (thermCondStr e)
    (linThermExp e) (linThermExpStr e) (subSystemCoupling e)
    (subSystemCouplingStr e) (numSubSystems e) (area e) (volume e)
    (_intHeatCapacity e) (intHeatCapacityStr e) (_intLinThermExp e)
    (intLinThermExpStr e).

Definition set_optPenDepth (v : Q) (e : unitCell) : unitCell :=
  UnitCell (ID e) (name e) (cAxis e) (aAxis e) (bAxis e) (atoms e)
    (numAtoms e) (mass e) (density e) (springConst e) (debWalFac e)
    (_soundVel e) (phononDamping e) v (optRefIndex e) (optRefIndexPerStrain e)
    (heatCapacity e) (heatCapacityStr e) (thermCond e) (thermCondStr e)
    (linThermExp e) (linThermExpStr e) (subSystemCoupling e)
    (subSystemCouplingStr e) (numSubSystems e) (area e) (volume e)
    (_intHeatCapacity e) (intHeatCapacityStr e) (_intLinThermExp e)
    (intLinThermExpStr e).

Definition set_optRefIndex (v : pyval) (e : unitCell) : unitCell :=
  UnitCell (ID e) (name e) (cAxis e) (aAxis e) (bAxis e) (atoms e)
    (numAtoms e) (mass e) (density e) (springConst e) (debWalFac e)
    (_soundVel e) (phononDamping e) (optPenDepth e) v (optRefIndexPerStrain e)
    (heatCapacity e) (heatCapacityStr e) (thermCond e) (thermCondStr e)
    (linThermExp e) (linThermExpStr e) (subSystemCoupling e)
    (subSystemCouplingStr e) (numSubSystems e) (area e) (volume e)
    (_intHeatCapacity e) (intHeatCapacityStr e) (_intLinThermExp e)
    (intLinThermExpStr e).

Definition set_optRefIndexPerStrain (v : pyval) (e : unitCell) : unitCell :=
  UnitCell (ID e) (name e) (cAxis e) (aAxis e) (bAxis e) (atoms e)
    (numAtoms e) (mass e) (density e) (springConst e) (debWalFac e)
    (_soundVel e) (phononDamping e) (optPenDepth e) (optRefIndex e) v
    (heatCapacity e) (heatCapacityStr e) (thermCond e) (thermCondStr e)
    (linThermExp e) (linThermExpStr e) (subSystemCoupling e)
    (subSystemCouplingStr e) (numSubSystems e) (area e) (volume e)
    (_intHeatCapacity e) (intHeatCapacityStr e) (_intLinThermExp e)
    (intLinThermExpStr e).

Definition set_heatCapacity (v : list pyval) (e : unitCell) : unitCell :=
  UnitCell (ID e) (name e) (cAxis e) (aAxis e) (bAxis e) (atoms e)
    (numAtoms e) (mass e) (density e) (springConst e) (debWalFac e)
    (_soundVel e) (phononDamping e) (optPenDepth e) (optRefIndex e)
    (optRefIndexPerStrain e) v (heatCapacityStr e) (thermCond e)
    (thermCondStr e) (linThermExp e) (linThermExpStr e) (subSystemCoupling e)
    (subSystemCouplingStr e) (numSubSystems e) (area e) (volume e)
    (_intHeatCapacity e) (intHeatCapacityStr e) (_intLinThermExp e)
    (intLinThermExpStr e).

Definition set_heatCapacityStr (v : list string) (e : unitCell) : unitCell :=
  UnitCell (ID e) (name e) (cAxis e) (aAxis e) (bAxis e) (atoms e)
    (numAtoms e) (mass e) (density e) (springConst e) (debWalFac e)
    (_soundVel e) (phononDamping e) (optPenDepth e) (optRefIndex e)
    (optRefIndexPerStrain e) (heatCapacity e) v (thermCond e) (thermCondStr e)
    (linThermExp e) (linThermExpStr e) (subSystemCoupling e)
    (subSystemCouplingStr e) (numSubSystems e) (area e) (volume e)
    (_intHeatCapacity e) (intHeatCapacityStr e) (_intLinThermExp e)
    (intLinThermExpStr e).

Definition set_thermCond (v : list pyval) (e : unitCell) : unitCell :=
  UnitCell (ID e) (name e) (cAxis e) (aAxis e) (bAxis e) (atoms e)
    (numAtoms e) (mass e) (density e) (springConst e) (debWalFac e)
    (_soundVel e) (phononDamping e) (optPenDepth e) (optRefIndex e)
    (optRefIndexPerStrain e) (heatCapacity e) (heatCapacityStr e) v
    (thermCondStr e) (linThermExp e) (linThermExpStr e) (subSystemCoupling e)
    (subSystemCouplingStr e) (numSubSystems e) (area e) (volume e)
    (_intHeatCapacity e) (intHeatCapacityStr e) (_intLinThermExp e)
    (intLinThermExpStr e).

Definition set_thermCondStr (v : list string) (e : unitCell) : unitCell :=
  UnitCell (ID e) (name e) (cAxis e) (aAxis e) (bAxis e) (atoms e)
    (numAtoms e) (mass e) (density e) (springConst e) (debWalFac e)
    (_soundVel e) (phononDamping e) (optPenDepth e) (optRefIndex e)
    (optRefIndexPerStrain e) (heatCapacity e) (heatCapacityStr e)
    (thermCond e) v (linThermExp e) (linThermExpStr e) (subSystemCoupling e)
    (subSystemCouplingStr e) (numSubSystems e) (area e) (volume e)
    (_intHeatCapacity e) (intHeatCapacityStr e) (_intLinThermExp e)
    (intLinThermExpStr e).

Definition set_linThermExp (v : list pyval) (e : unitCell) : unitCell :=
  UnitCell (ID e) (name e) (cAxis e) (aAxis e) (bAxis e) (atoms e)
    (numAtoms e) (mass e) (density e) (springConst e) (debWalFac e)
    (_soundVel e) (phononDamping e) (optPenDepth e) (optRefIndex e)
    (optRefIndexPerStrain e) (heatCapacity e) (heatCapacityStr e)
    (thermCond e) (thermCondStr e) v (linThermExpStr e) (subSystemCoupling e)
    (subSystemCouplingStr e) (numSubSystems e) (area e) (volume e)
    (_intHeatCapacity e) (intHeatCapacityStr e) (_intLinThermExp e)
    (intLinThermExpStr e).

Definition set_linThermExpStr (v : list string) (e : unitCell) : unitCell :=
  UnitCell (ID e) (name e) (cAxis e) (aAxis e) (bAxis e) (atoms e)
    (numAtoms e) (mass e) (density e) (springConst e) (debWalFac e)
    (_soundVel e) (phononDamping e) (optPenDepth e) (optRefIndex e)
    (optRefIndexPerStrain e) (heatCapacity e) (heatCapacityStr e)
    (thermCond e) (thermCondStr e) (linThermExp e) v (subSystemCoupling e)
    (subSystemCouplingStr e) (numSubSystems e) (area e) (volume e)
    (_intHeatCapacity e) (intHeatCapacityStr e) (_intLinThermExp e)
    (intLinThermExpStr e).

Definition set_subSystemCoupling (v : list pyval) (e : unitCell) : unitCell :=
  UnitCell (ID e) (name e) (cAxis e) (aAxis e) (bAxis e) (atoms e)
    (numAtoms e) (mass e) (density e) (springConst e) (debWalFac e)
    (_soundVel e) (phononDamping e) (optPenDepth e) (optRefIndex e)
    (optRefIndexPerStrain e) (heatCapacity e) (heatCapacityStr e)
    (thermCond e) (thermCondStr e) (linThermExp e) (linThermExpStr e) v
    (subSystemCouplingStr e) (numSubSystems e) (area e) (volume e)
    (_intHeatCapacity e) (intHeatCapacityStr e) (_intLinThermExp e)
    (intLinThermExpStr e).

Definition set_subSystemCouplingStr (v : list string) (e : unitCell) : unitCell :=
  UnitCell (ID e) (name e) (cAxis e) (aAxis e) (bAxis e) (atoms e)
    (numAtoms e) (mass e) (density e) (springConst e) (debWalFac e)
    (_soundVel e) (phononDamping e) (optPenDepth e) (optRefIndex e)
    (optRefIndexPerStrain e) (heatCapacity e) (heatCapacityStr e)
    (thermCond e) (thermCondStr e) (linThermExp e) (linThermExpStr e)
    (subSystemCoupling e) v (numSubSystems e) (area e) (volume e)
    (_intHeatCapacity e) (intHeatCapacityStr e) (_intLinThermExp e)
    (intLinThermExpStr e).

Definition set_numSubSystems (v : nat) (e : unitCell) : unitCell :=
  UnitCell (ID e) (name e) (cAxis e) (aAxis e) (bAxis e) (atoms e)
    (numAtoms e) (mass e) (density e) (springConst e) (debWalFac e)
    (_soundVel e) (phononDamping e) (optPenDepth e) (optRefIndex e)
    (optRefIndexPerStrain e) (heatCapacity e) (heatCapacityStr e)
    (thermCond e) (thermCondStr e) (linThermExp e) (linThermExpStr e)
    (subSystemCoupling e) (subSystemCouplingStr e) v (area e) (volume e)
    (_intHeatCapacity e) (intHeatCapacityStr e) (_intLinThermExp e)
    (intLinThermExpStr e).

Definition set_area (v : Q) (e : unitCell) : unitCell :=
  UnitCell (ID e) (name e) (cAxis e) (aAxis e) (bAxis e) (atoms e)
    (numAtoms e) (mass e) (density e) (springConst e) (debWalFac e)
    (_soundVel e) (phononDamping e) (optPenDepth e) (optRefIndex e)
    (optRefIndexPerStrain e) (heatCapacity e) (heatCapacityStr e)
    (thermCond e) (thermCondStr e) (linThermExp e) (linThermExpStr e)
    (subSystemCoupling e) (subSystemCouplingStr e) (numSubSystems e) v
    (volume e) (_intHeatCapacity e) (intHeatCapacityStr e) (_intLinThermExp e)
    (intLinThermExpStr e).

Definition set_volume (v : Q) (e : unitCell) : unitCell :=
  UnitCell (ID e) (name e) (cAxis e) (aAxis e) (bAxis e) (atoms e)
    (numAtoms e) (mass e) (density e) (springConst e) (debWalFac e)
    (_soundVel e) (phononDamping e) (optPenDepth e) (optRefIndex e)
    (optRefIndexPerStrain e) (heatCapacity e) (heatCapacityStr e)
    (thermCond e) (thermCondStr e) (linThermExp e) (linThermExpStr e)
    (subSystemCoupling e) (subSystemCouplingStr e) (numSubSystems e) (area e)
    v (_intHeatCapacity e) (intHeatCapacityStr e) (_intLinThermExp e)
    (intLinThermExpStr e).

Definition set_intHeatCapacity (v : option positive) (e : unitCell) : unitCell :=
  UnitCell (ID e) (name e) (cAxis e) (aAxis e) (bAxis e) (atoms e)
    (numAtoms e) (mass e) (density e) (springConst e) (debWalFac e)
    (_soundVel e) (phononDamping e) (optPenDepth e) (optRefIndex e)
    (optRefIndexPerStrain e) (heatCapacity e) (heatCapacityStr e)
    (thermCond e) (thermCondStr e) (linThermExp e) (linThermExpStr e)
    (subSystemCoupling e) (subSystemCouplingStr e) (numSubSystems e) (area e)
    (volume e) v (intHeatCapacityStr e) (_intLinThermExp e)
    (intLinThermExpStr e).

Definition set_intHeatCapacityStr (v : option positive) (e : unitCell) : unitCell :=
  UnitCell (ID e) (name e) (cAxis e) (aAxis e) (bAxis e) (atoms e)
    (numAtoms e) (mass e) (density e) (springConst e) (debWalFac e)
    (_soundVel e) (phononDamping e) (optPenDepth e) (optRefIndex e)
    (optRefIndexPerStrain e) (heatCapacity e) (heatCapacityStr e)
    (thermCond e) (thermCondStr e) (linThermExp e) (linThermExpStr e)
    (subSystemCoupling e) (subSystemCouplingStr e) (numSubSystems e) (area e)
    (volume e) (_intHeatCapacity e) v (_intLinThermExp e)
    (intLinThermExpStr e).

Definition set_intLinThermExp (v : option positive) (e : unitCell) : unitCell :=
  UnitCell (ID e) (name e) (cAxis e) (aAxis e) (bAxis e) (atoms e)
    (numAtoms e) (mass e) (density e) (springConst e) (debWalFac e)
    (_soundVel e) (phononDamping e) (optPenDepth e) (optRefIndex e)
    (optRefIndexPerStrain e) (heatCapacity e) (heatCapacityStr e)
    (thermCond e) (thermCondStr e) (linThermExp e) (linThermExpStr e)
    (subSystemCoupling e) (subSystemCouplingStr e) (numSubSystems e) (area e)
    (volume e) (_intHeatCapacity e) (intHeatCapacityStr e) v
    (intLinThermExpStr e).

Definition set_intLinThermExpStr (v : option positive) (e : unitCell) : unitCell :=
  UnitCell (ID e) (name e) (cAxis e) (aAxis e) (bAxis e) (atoms e)
    (numAtoms e) (mass e) (density e) (springConst e) (debWalFac e)
    (_soundVel e) (phononDamping e) (optPenDepth e) (optRefIndex e)
    (optRefIndexPerStrain e) (heatCapacity e) (heatCapacityStr e)
    (thermCond e) (thermCondStr e) (linThermExp e) (linThermExpStr e)
    (subSystemCoupling e) (subSystemCouplingStr e) (numSubSystems e) (area e)
    (volume e) (_intHeatCapacity e) (intHeatCapacityStr e) (_intLinThermExp e)
    v.

(** The keyword arguments of the constructor; [None]: not given. *)
Record kwargs : Type := Kwargs {
  kw_aAxis : option Q;
  kw_bAxis : option Q;
  kw_debWalFac : option Q;
  kw_soundVel : option Q;
  kw_phononDamping : option Q;
  kw_optPenDepth : option Q;
  kw_optRefIndex : option pyval;
  kw_optRefIndexPerStrain : option pyval;
  kw_heatCapacity : option pyval;
  kw_thermCond : option pyval;
  kw_linThermExp : option pyval;
  kw_subSystemCoupling : option pyval
}.

Definition no_kwargs : kwargs :=
  Kwargs None None None None None None None None None None None None.

(** The value of an attribute, as [vars(self)] gives it. *)
Inductive attr : Type :=
| AStr (s : string)
| ANum (q : Q)
| ANat (n : nat)
| AVal (v : pyval)
| AFuncs (fs : list pyval)
| AStrs (ss : list string)
| AAtoms (l : list (atom * pyval * string))
| AArray (a : ndarray)
| ARef (l : positive).

(** [vars(self)]: the attributes of the object by name. The property
    [soundVel] keeps its value in [_soundVel]. *)
Definition vars (e : unitCell) : gmap string attr :=
  list_to_map
    ([ ("ID", AStr (ID e)); ("name", AStr (name e)); ("cAxis", ANum (cAxis e));
       ("aAxis", ANum (aAxis e)); ("bAxis", ANum (bAxis e));
       ("atoms", AAtoms (atoms e)); ("numAtoms", ANat (numAtoms e));
       ("mass", ANum (mass e)); ("density", ANum (density e));
       ("springConst", AArray (springConst e));
       ("debWalFac", ANum (debWalFac e)); ("_soundVel", ANum (_soundVel e));
       ("phononDamping", ANum (phononDamping e));
       ("optPenDepth", ANum (optPenDepth e));
       ("optRefIndex", AVal (optRefIndex e));
       ("optRefIndexPerStrain", AVal (optRefIndexPerStrain e));
       ("heatCapacity", AFuncs (heatCapacity e));
       ("heatCapacityStr", AStrs (heatCapacityStr e));
       ("thermCond", AFuncs (thermCond e));
       ("thermCondStr", AStrs (thermCondStr e));
       ("linThermExp", AFuncs (linThermExp e));
       ("linThermExpStr", AStrs (linThermExpStr e));
       ("subSystemCoupling", AFuncs (subSystemCoupling e));
       ("subSystemCouplingStr", AStrs (subSystemCouplingStr e));
       ("numSubSystems", ANat (numSubSystems e));
       ("area", ANum (area e)); ("volume", ANum (volume e)) ]
     ++ match _intHeatCapacity e with
        | Some l => [("_intHeatCapacity", ARef l)] | None => [] end
     ++ match intHeatCapacityStr e with
        | Some l => [("intHeatCapacityStr", ARef l)] | None => [] end
     ++ match _intLinThermExp e with
        | Some l => [("_intLinThermExp", ARef l)] | None => [] end
     ++ match intLinThermExpStr e with
        | Some l => [("intLinThermExpStr", ARef l)] | None => [] end).

(** ** The store and the monad of methods *)

Inductive event : Type :=
| Printed (line : string)
| Integrated (expression : string).

(** The object a method runs on, the list objects that are held by
    reference, the next free reference, and what happened so far. *)
Record world : Type := World {
  self : unitCell;
  heap : gmap positive pyval;
  next : positive;
  trace : list event
}.

Definition M (A : Type) : Type := world -> outcome A * world.

#[global] Instance M_ret : MRet M := fun A a w => (Returned a, w).

#[global] Instance M_bind : MBind M := fun A B k m w =>
  match m w with
  | (Returned a, w') => k a w'
  | (Raised e, w') => (Raised e, w')
  end.

Definition raise {A : Type} (e : exn) : M A := fun w => (Raised e, w).

Definition lift {A : Type} (o : outcome A) : M A := fun w => (o, w).

(** [try: body except Exception as e: handler e]; what [body] did before
    it raised stays done. *)
Definition try_except {A : Type} (body : M A) (handler : exn -> M A) : M A :=
  fun w =>
    match body w with
    | (Returned a, w') => (Returned a, w')
    | (Raised e, w') => handler e w'
    end.

(** [self.f] *)
Definition gets {A : Type} (f : unitCell -> A) : M A :=
  fun w => (Returned (f (self w)), w).

(** [self.f = v], [set_f] the update of the attribute [f] *)
Definition setattr {A : Type} (set_f : A -> unitCell -> unitCell) (v : A) : M unit :=
  fun w => (Returned tt, World (set_f v (self w)) (heap w) (next w) (trace w)).

Definition emit (ev : event) : M unit :=
  fun w => (Returned tt, World (self w) (heap w) (next w) (trace w ++ [ev])).

Definition print (line : string) : M unit := emit (Printed line).

(** A new list object. *)
Definition alloc (v : pyval) : M positive :=
  fun w =>
    (Returned (next w),
     World (self w) (<[next w := v]> (heap w)) (Pos.succ (next w)) (trace w)).

(** [l.append(x)] on the list object at [l] *)
Definition list_append (l : positive) (x : pyval) : M unit :=
  fun w =>
    (Returned tt,
     World (self w)
       (alter (fun v => match v with VList items => VList (items ++ [x]) | _ => v end)
          l (heap w))
       (next w) (trace w)).

(** The attribute [f] holds a list: [hasattr(self, f) and
    isinstance(self.f, list)] *)
Definition holds_list (f : unitCell -> option positive) : M bool :=
  fun w =>
    (Returned
       match f (self w) with
       | Some l => match heap w !! l with Some (VList _) => true | _ => false end
       | None => false
       end, w).

(** [self.f] for an attribute that may not exist *)
Definition getref (f : unitCell -> option positive) : M positive :=
  r ← gets f;
  match r with
  | Some l => mret l
  | None => raise (Exception "AttributeError" "'unitCell' object has no such attribute")
  end.

Fixpoint for_each {A : Type} (l : list A) (body : A -> M unit) : M unit :=
  match l with
  | [] => mret tt
  | x :: l' => body x;; for_each l' body
  end.

(** ** Messages *)

Definition msg_use_string : string :=
  "Please use string representation of function!".

Definition msg_bad_property : string :=
  "Unit cell property input has to be a single or" +:+
  "cell array of numerics, function handles or strings which can be" +:+
  "converted into a function handle!".

Definition msg_bad_position : string :=
  "Atom position input has to be a scalar, or string" +:+
  "which can be converted into a lambda function!".

Definition msg_subsystems : string :=
  "Heat capacity, thermal conductivity, linear" +:+
  "thermal expansion and subsystem coupling have not the same number of elements!".

(** The report of a text that [eval] refused; the source continues the
    string literal on the next line, whose indentation ([indent] spaces) is
    part of the message. *)
Definition msg_not_converted (indent : nat) (input : string) : string :=
  "String input for unit cell property " +:+ input +:+ " " +:+
  String.concat "" (replicate indent " ") +:+
  "cannot be converted to function handle!".

Definition msg_integration (article : string) : string :=
  "The sympy integration did not work. You can set the" +:+ article +:+
  "analytical anti-derivative of the heat capacity" +:+
  "of your unit cells as lambda function of the temperature" +:+
  "T by typing UC.intHeatCapacity = lambda T: c(T)" +:+
  "where UC is the name of the unit cell object.".

(** [s.split(':')[1]]: the text between the first colon and the next. *)
Fixpoint after_colon (s : string) : option string :=
  match s with
  | EmptyString => None
  | String c rest => if Ascii.eqb c ":"%char then Some rest else after_colon rest
  end.

Fixpoint until_colon (s : string) : string :=
  match s with
  | EmptyString => EmptyString
  | String c rest =>
      if Ascii.eqb c ":"%char then EmptyString else String c (until_colon rest)
  end.

Definition split_colon_1 (s : string) : outcome string :=
  match after_colon s with
  | Some rest => Returned (until_colon rest)
  | None => Raised IndexError
  end.

(** The fields of each type of simulation, [propertiesByTypes]. *)
Definition propertiesByTypes : gmap string (list string) :=
  list_to_map
    [ ("heat", ["cAxis"; "area"; "volume"; "optPenDepth"; "thermCondStr";
                "heatCapacityStr"; "intHeatCapacityStr"; "subSystemCouplingStr";
                "numSubSystems"]);
      ("phonon", ["numSubSystems"; "intLinThermExpStr"; "cAxis"; "mass";
                  "springConst"; "phononDamping"]);
      ("XRD", ["numAtoms"; "atoms"; "area"; "debWalFac"; "cAxis"]);
      ("optical", ["cAxis"; "optPenDepth"; "optRefIndex"; "optRefIndexPerStrain"]) ].

(** The object before [__init__] has run: no attribute is set yet, the
    values below are never read. *)
Definition blank : unitCell :=
  UnitCell EmptyString EmptyString 0 0 0 [] 0 0 0 (NdArray float64 []) 0 0 0 0
    (VObject "unset") (VObject "unset") [] [] [] [] [] [] [] [] 0 0 0
    None None None None.

Definition new_world : world := World blank ∅ 1%positive [].

(** ** The methods *)

Section Methods.

(** Python's [eval] on a text the caller supplies: the object it denotes, or
    the exception it raises. *)
Variable py_eval : string -> outcome pyval.

(** sympy on the text of an integrand: [integrate(text, T)], and of the
    integral [I] it finds, [lambdify(T, I)] and [str(I)]. *)
Variable integrate : string -> outcome (pyval * string).

(** One round of the loop of [checkCellArrayInput]. *)
Definition resolve_entry (input : pyval) (output : list pyval) (outputStrs : list string)
  : M (list pyval * list string) :=
  if isfunction input then raise (ValueError msg_use_string)
  else
    match input with
    | VStr s =>
        try_except
          (f ← lift (py_eval s);
           mret (output ++ [f], outputStrs ++ [s]))
          (fun e =>
             print (msg_not_converted 24 s);;
             print (exn_str e);;
             mret (output, outputStrs))
    | VInt _ | VFloat _ =>
        let v := default 0 (number input) in
        mret (output ++ [lambda_const (value_f v)],
              outputStrs ++ ["lambda T: " +:+ format_f v])
    | _ => raise (ValueError msg_bad_property)
    end.

Fixpoint resolve_entries (inputs : list pyval) (output : list pyval)
    (outputStrs : list string) : M (list pyval * list string) :=
  match inputs with
  | [] => mret (output, outputStrs)
  | input :: rest =>
      '(output', outputStrs') ← resolve_entry input output outputStrs;
      resolve_entries rest output' outputStrs'
  end.

Definition checkCellArrayInput (inputs : pyval) : M (list pyval * list string) :=
  let inputs := match inputs with VList l => l | _ => [inputs] end in
  resolve_entries inputs [] [].

Definition calcSpringConst : M unit :=
  m ← gets mass;
  v ← gets _soundVel;
  c ← gets cAxis;
  r ← lift (py_div v c);
  k ← gets springConst;
  k' ← lift (nd_setitem k 0 (m * r ^ 2));
  setattr set_springConst k'.


Definition soundVel_set (soundVel : Q) : M unit :=
  setattr set_soundVel soundVel;;
  calcSpringConst.

(** [__init__], in three parts: the attributes up to the four resolved
    lists, the comparison of their lengths, and the area and the volume. *)
Definition init_properties (ID_ name_ : string) (cAxis_ : Q) (kw : kwargs) : M unit :=
  setattr set_ID ID_;;
  setattr set_name name_;;
  setattr set_cAxis cAxis_;;
  c ← gets cAxis;
  setattr set_aAxis (default c (kw_aAxis kw));;
  a ← gets aAxis;
  setattr set_bAxis (default a (kw_bAxis kw));;
  setattr set_atoms [];;
  setattr set_numAtoms 0%nat;;
  setattr set_mass 0;;
  setattr set_density 0;;
  setattr set_springConst (np_array_int [0%Z]);;
  setattr set_debWalFac (default 0 (kw_debWalFac kw));;
  soundVel_set (default 0 (kw_soundVel kw));;
  setattr set_phononDamping (default 0 (kw_phononDamping kw));;
  setattr set_optPenDepth (default 0 (kw_optPenDepth kw));;
  setattr set_optRefIndex (default (VInt 0) (kw_optRefIndex kw));;
  setattr set_optRefIndexPerStrain (default (VInt 0) (kw_optRefIndexPerStrain kw));;
  '(f, s) ← checkCellArrayInput (default (VInt 0) (kw_heatCapacity kw));
  setattr set_heatCapacity f;;
  setattr set_heatCapacityStr s;;
  '(f, s) ← checkCellArrayInput (default (VInt 0) (kw_thermCond kw));
  setattr set_thermCond f;;
  setattr set_thermCondStr s;;
  '(f, s) ← checkCellArrayInput (default (VInt 0) (kw_linThermExp kw));
  setattr set_linThermExp f;;
  setattr set_linThermExpStr s;;
  '(f, s) ← checkCellArrayInput (default (VInt 0) (kw_subSystemCoupling kw));
  setattr set_subSystemCoupling f;;
  setattr set_subSystemCouplingStr s.

Definition init_subsystems : M unit :=
  hc ← gets heatCapacity;
  tc ← gets thermCond;
  lte ← gets linThermExp;
  ssc ← gets subSystemCoupling;
  if ((length hc =? length tc) && (length hc =? length lte)
      && (length hc =? length ssc))%nat
  then setattr set_numSubSystems (length hc)
  else raise (ValueError msg_subsystems).

Definition init_geometry : M unit :=
  a ← gets aAxis;
  b ← gets bAxis;
  setattr set_area (a * b);;
  ar ← gets area;
  c ← gets cAxis;
  setattr set_volume (ar * c).

Definition init (ID_ name_ : string) (cAxis_ : Q) (kw : kwargs) : M unit :=
  init_properties ID_ name_ cAxis_ kw;;
  init_subsystems;;
  init_geometry.

(** [unitCell(ID, name, cAxis, **kwargs)] *)
Definition unitCell_new (ID_ name_ : string) (cAxis_ : Q) (kw : kwargs)
  : outcome unit * world :=
  init ID_ name_ cAxis_ kw new_world.

(** The test of the type of the position in [addAtom]: the function that
    is stored and its text. *)
Definition resolve_position (position : pyval) : M (pyval * string) :=
  if isfunction position then raise (ValueError msg_use_string)
  else
    match position with
    | VStr s =>
        try_except
          (f ← lift (py_eval s);
           mret (f, s))
          (fun e =>
             print (msg_not_converted 20 s);;
             print (exn_str e);;
             mret (VStr s, s))
    | VInt _ | VFloat _ =>
        let p := default 0 (number position) in
        mret (lambda_scaled (value_e p),
              "lambda strain: " +:+ format_e p +:+ "*(strain+1)")
    | _ => raise (ValueError msg_bad_position)
    end.

Definition addAtom (atom_ : atom) (position : pyval) : M unit :=
  '(position', positionStr) ← resolve_position position;
  l ← gets atoms;
  setattr set_atoms (l ++ [(atom_, position', positionStr)]);;
  n ← gets numAtoms;
  setattr set_numAtoms (n + 1)%nat;;
  setattr set_mass 0;;
  n ← gets numAtoms;
  for_each (seq 0 n) (fun i =>
    m ← gets mass;
    l ← gets atoms;
    match l !! i with
    | Some (a, _, _) => setattr set_mass (m + atom_mass a)
    | None => raise IndexError
    end);;
  m ← gets mass;
  v ← gets volume;
  d ← lift (py_div m v);
  setattr set_density d;;
  m ← gets mass;
  a ← gets area;
  m' ← lift (py_div (m * 1 * angstrom ^ 2) a);
  setattr set_mass m';;
  calcSpringConst.

Definition addMultipleAtoms (atom_ : atom) (position : pyval) (Nb : nat) : M unit :=
  for_each (seq 0 Nb) (fun _ => addAtom atom_ position).


Definition getPropertyStruct (types : option string) : M (gmap string attr) :=
  attrs ← gets vars;
  if decide (types = Some "all") then mret attrs
  else
    match types ≫= (propertiesByTypes !!.) with
    | Some keys => mret (filter (fun kv => kv.1 ∈ keys) attrs)
    | None => raise (KeyError types)
    end.

(** [integrate] as the getters call it, on record in the trace. *)
Definition sympy_integrate (text : string) : M (pyval * string) :=
  emit (Integrated text);;
  lift (integrate text).

(** The getter of the property [intHeatCapacity]; it returns the list
    object itself. *)
Definition intHeatCapacity_get : M positive :=
  cached ← holds_list _intHeatCapacity;
  (match cached with
   | true => mret tt
   | false =>
     l ← alloc (VList []);
     setattr set_intHeatCapacity (Some l);;
     l ← alloc (VList []);
     setattr set_intHeatCapacityStr (Some l);;
     try_except
       (strs ← gets heatCapacityStr;
        for_each strs (fun hcs =>
          text ← lift (split_colon_1 hcs);
          '(f, s) ← sympy_integrate text;
          l ← getref _intHeatCapacity;
          list_append l f;;
          l ← getref intHeatCapacityStr;
          list_append l (VStr ("lambda T : " +:+ s))))
       (fun e =>
          print (msg_integration EmptyString);;
          print (exn_str e))
   end);;
  getref _intHeatCapacity.

Definition intHeatCapacity_set (intHeatCapacity : pyval) : M unit :=
  '(f, s) ← checkCellArrayInput intHeatCapacity;
  l ← alloc (VList f);
  l' ← alloc (VList (VStr <$> s));
  setattr set_intHeatCapacity (Some l);;
  setattr set_intHeatCapacityStr (Some l').

(** The getter of the property [intLinThermExp]. *)
Definition intLinThermExp_get : M positive :=
  cached ← holds_list _intLinThermExp;
  (match cached with
   | true => mret tt
   | false =>
     l ← alloc (VList []);
     setattr set_intLinThermExp (Some l);;
     l ← alloc (VList []);
     setattr set_intLinThermExpStr (Some l);;
     try_except
       (strs ← gets linThermExpStr;
        for_each strs (fun ltes =>
          text ← lift (split_colon_1 ltes);
          '(f, s) ← sympy_integrate text;
          l ← getref _intLinThermExp;
          list_append l f;;
          l ← getref intLinThermExpStr;
          list_append l (VStr ("lambda T : " +:+ s))))
       (fun e =>
          print (msg_integration "the ");;
          print (exn_str e))
   end);;
  getref _intLinThermExp.

Definition intLinThermExp_set (intLinThermExp : pyval) : M unit :=
  '(f, s) ← checkCellArrayInput intLinThermExp;
  l ← alloc (VList f);
  l' ← alloc (VList (VStr <$> s));
  setattr set_intLinThermExp (Some l);;
  setattr set_intLinThermExpStr (Some l').

End Methods.

(** ** Example inputs *)

(** An [eval] that knows one text and refuses every other. *)
Definition example_eval (s : string) : outcome pyval :=
  if String.eqb s "lambda T: 2*T"
  then Returned (VLambda "T" (EMul (ENum 2) (EVar "T")))
  else Raised (Exception "SyntaxError" "invalid syntax").

(** An integrator that knows the constant zero only. *)
Definition example_integrate (s : string) : outcome (pyval * string) :=
  if String.eqb s " 0.000000" then Returned (lambda_const 0, "0")
  else Raised (Exception "SympifyError" "could not parse").

Definition example_atom : atom := Atom "O" "Oxygen" 100000000000000000000.

(** [unitCell('uc', 'cell', 1)] *)
Definition example_cell : world :=
  snd (unitCell_new example_eval "uc" "cell" 1 no_kwargs).

(** [unitCell('uc', 'cell', 1, soundVel=1.5)] *)
Definition example_fast_cell : world :=
  snd (unitCell_new example_eval "uc" "cell" 1
         (Kwargs None None None (Some (3 # 2)) None None None None None None None None)).

(** ** Notions used in the statements *)

(** What one entry adds to the two lists of the resolver: nothing for a text
    that [eval] refuses, a function and its text otherwise; [None] for an
    entry on which the resolver raises. *)
Definition entry_result (py_eval : string -> outcome pyval) (input : pyval)
  : option (list (pyval * string)) :=
  match input with
  | VStr s =>
      match py_eval s with
      | Returned f => Some [(f, s)]
      | Raised _ => Some []
      end
  | VInt _ | VFloat _ =>
      let v := default 0 (number input) in
      Some [(lambda_const (value_f v), "lambda T: " +:+ format_f v)]
  | _ => None
  end.


(** The sum of the masses of the atoms of a cell, from [acc] on. *)
Definition total_mass (l : list (atom * pyval * string)) (acc : Q) : Q :=
  fold_left (fun m entry => m + atom_mass entry.1.1) l acc.

(** What the resolver prints for one entry. *)
Definition entry_report (py_eval : string -> outcome pyval) (input : pyval)
  : list event :=
  match input with
  | VStr s =>
      match py_eval s with
      | Returned _ => []
      | Raised e => [Printed (msg_not_converted 24 s); Printed (exn_str e)]
      end
  | _ => []
  end.

Fixpoint entries_result (py_eval : string -> outcome pyval) (inputs : list pyval)
  : option (list (pyval * string)) :=
  match inputs with
  | [] => Some []
  | input :: rest =>
      match entry_result py_eval input, entries_result py_eval rest with
      | Some add, Some adds => Some (add ++ adds)
      | _, _ => None
      end
  end.

(** The world [w] after the events [evs]. *)
Definition logged (evs : list event) (w : world) : world :=
  World (self w) (heap w) (next w) (trace w ++ evs).

(** [unitCell('uc', 'cell', 1, soundVel=1.5)] with one atom of mass
    [1e20] at the position [0.5]. *)
Definition example_loaded_cell : world :=
  snd (addAtom example_eval example_atom (VFloat (1 # 2)) example_fast_cell).

(** The attribute [_intHeatCapacity] holds the list object [l]. *)
Definition heat_cached (l : positive) (w : world) : Prop :=
  _intHeatCapacity (self w) = Some l /\ exists items, heap w !! l = Some (VList items).

(** The computation [m] keeps the property [P] of the world, also when it
    raises. *)
Definition preserves {A : Type} (P : world -> Prop) (m : M A) : Prop :=
  forall w, P w -> P (snd (m w)).

(** The entries of an input of the resolver: a value that is not a list
    counts as the list of that one value. *)
Definition as_list (v : pyval) : list pyval :=
  match v with VList l => l | _ => [v] end.

(** Keyword arguments with two heat capacities and one of each other
    property. *)
Definition example_mismatch : kwargs :=
  Kwargs None None None None None None None None
    (Some (VList [VInt 1; VInt 2])) None None None.

(** What [addAtom] stores for a position and what it prints: the function
    and its text for a number, the value of the text for a text (the text
    itself, with a report, when [eval] refuses it); [None] for a position on
    which it raises. *)
Definition position_entry (py_eval : string -> outcome pyval) (position : pyval)
  : option (pyval * string * list event) :=
  match position with
  | VStr s =>
      match py_eval s with
      | Returned f => Some (f, s, [])
      | Raised e =>
          Some (VStr s, s, [Printed (msg_not_converted 20 s); Printed (exn_str e)])
      end
  | VInt _ | VFloat _ =>
      let p := default 0 (number position) in
      Some (lambda_scaled (value_e p),
            "lambda strain: " +:+ format_e p +:+ "*(strain+1)", [])
  | _ => None
  end.

(** [unitCell('uc', 'cell', 1)] with one atom of mass [1e20] at the position
    [0.5]; its sound velocity is still [0]. *)
Definition example_still_cell : world :=
  snd (addAtom example_eval example_atom (VFloat (1 # 2)) example_cell).

(** ** Further methods *)

(** A Python number, as an entry of the argument of [setHOspringConstants]. *)
Inductive pynum : Type :=
| NInt (z : Z)
| NFloat (q : Q).

Definition pynum_value (x : pynum) : Q :=
  match x with
  | NInt z => inject_Z z
  | NFloat q => q
  end.

Definition pynum_is_int (x : pynum) : bool :=
  match x with
  | NInt _ => true
  | NFloat _ => false
  end.

(** [np.asarray(l)] for a list of numbers: integers when the list is not
    empty and holds Python ints only (ints within the range of [int64]; a
    larger one is outside this model), floats otherwise. *)
Definition np_asarray (l : list pynum) : ndarray :=
  NdArray
    (if forallb pynum_is_int l && negb (Nat.eqb (length l) 0) then int64 else float64)
    (pynum_value <$> l).

(** [np.delete(a, np.r_[1:len(a)])]: [a] without what follows its first
    element. *)
Definition np_delete_from_1 (a : ndarray) : ndarray :=
  NdArray (nd_dtype a) (take 1 (nd_items a)).

(** [np.hstack((a, b))]: the elements of both, of the common type. *)
Definition np_hstack (a b : ndarray) : ndarray :=
  NdArray
    (match nd_dtype a, nd_dtype b with
     | int64, int64 => int64
     | _, _ => float64
     end)
    (nd_items a ++ nd_items b).


(** A loop with a local variable: [for x in l: acc = body acc x]. *)
Fixpoint fold_each {A B : Type} (l : list A) (acc : B) (body : B -> A -> M B) : M B :=
  match l with
  | [] => mret acc
  | x :: l' => acc' ← body acc x; fold_each l' acc' body
  end.



Section MoreMethods.

(** The call of an object that [eval] or the caller made and that this
    module cannot look into. *)
Variable py_apply : pyval -> Q -> outcome Q.


(** [HO] is a list of numbers. *)
Definition setHOspringConstants (HO : list pynum) : M unit :=
  k ← gets springConst;
  setattr set_springConst (np_delete_from_1 k);;
  k ← gets springConst;
  setattr set_springConst (np_hstack k (np_asarray HO)).

Definition getAtomIDs : M (list string) :=
  n ← gets numAtoms;
  fold_each (seq 0 n) [] (fun IDs i =>
    l ← gets atoms;
    match l !! i with
    | Some (a, _, _) =>
        mret (if decide (atom_ID a ∈ IDs) then IDs else IDs ++ [atom_ID a])
    | None => raise IndexError
    end).


End MoreMethods.

(** The entries the resolver takes: numbers and texts. *)
Definition resolvable (v : pyval) : bool :=
  match v with
  | VInt _ | VFloat _ | VStr _ => true
  | _ => false
  end.

(** A cell that counts its atoms right, has a [cAxis] that is not zero and
    at least the first spring constant: what the constructor sets up. *)
Definition well_formed (w : world) : Prop :=
  numAtoms (self w) = length (atoms (self w))
  /\ ~ cAxis (self w) == 0
  /\ (0 < length (nd_items (springConst (self w))))%nat.

(** ** The integrals the getters compute *)

(** One round of the loop of a getter of an integrated property: the
    integral of the text after the colon and the text that is stored for
    it, or the exception of the round, and the integrations that were
    run. *)
Definition integrated_entry (integrate : string -> outcome (pyval * string))
    (hcs : string) : outcome (pyval * string) * list event :=
  match split_colon_1 hcs with
  | Raised e => (Raised e, [])
  | Returned text =>
      (match integrate text with
       | Returned (f, s) => Returned (f, "lambda T : " +:+ s)
       | Raised e => Raised e
       end, [Integrated text])
  end.

(** The rounds up to the first that raises: what they stored, the
    integrations that were run, and the exception that ended the loop. *)
Fixpoint integrated (integrate : string -> outcome (pyval * string))
    (strs : list string) : list (pyval * string) * list event * option exn :=
  match strs with
  | [] => ([], [], None)
  | hcs :: rest =>
      match integrated_entry integrate hcs with
      | (Returned fs, evs) =>
          let '(res, evs', err) := integrated integrate rest in
          (fs :: res, evs ++ evs', err)
      | (Raised e, evs) => ([], evs, Some e)
      end
  end.

(** What is printed when the loop of a getter ended with an exception. *)
Definition integration_report (article : string) (err : option exn) : list event :=
  match err with
  | Some e => [Printed (msg_integration article); Printed (exn_str e)]
  | None => []
  end.

(** The attribute [_intLinThermExp] holds the list object [l]. *)
Definition expansion_cached (l : positive) (w : world) : Prop :=
  _intLinThermExp (self w) = Some l /\ exists items, heap w !! l = Some (VList items).

(** The round that gave [fs] from the string [hcs]: the text after the
    colon was integrated. *)
Definition integral_of (integrate : string -> outcome (pyval * string))
    (hcs : string) (fs : pyval * string) : Prop :=
  exists text f s,
    split_colon_1 hcs = Returned text
    /\ integrate text = Returned (f, s)
    /\ fs = (f, "lambda T : " +:+ s).

(** ** The identifiers and the positions of the atoms *)

(** The identifiers [ids] put behind those of [acc], each once, in the
    order in which they are first seen: the rounds of the loop of
    [getAtomIDs]. *)
Definition first_seen (acc ids : list string) : list string :=
  foldl (fun IDs x => if decide (x ∈ IDs) then IDs else IDs ++ [x]) acc ids.

(** The identifiers of the atoms of a list of atoms. *)
Definition atom_IDs (l : list (atom * pyval * string)) : list string :=
  (fun entry => atom_ID entry.1.1) <$> l.

(** * Properties *)

(** ** Rounding and formatting *)


#[global] Instance round_half_even_proper : Proper (Qeq ==> eq) round_half_even.
Proof.
  intros x y Hxy. unfold round_half_even.
  rewrite (Qfloor_comp x y Hxy).
  assert (Hc : Qcompare (x - inject_Z (Qfloor y)) (1 # 2)
               = Qcompare (y - inject_Z (Qfloor y)) (1 # 2))
    by (apply Qcompare_comp; [rewrite Hxy|]; reflexivity).
  now rewrite Hc.
Qed.














(** ** The monad *)

Lemma run_bind {A B : Type} (m : M A) (k : A -> M B) (w : world) :
  (m ≫= k) w =
  match m w with
  | (Returned a, w') => k a w'
  | (Raised e, w') => (Raised e, w')
  end.
Proof. reflexivity. Qed.

(** Unfolding of the operations of the monad. *)
Ltac run_M :=
  cbv beta iota zeta delta
    [mbind M_bind mret M_ret raise lift try_except gets setattr emit print
     alloc list_append holds_list getref].


Lemma run_bind_returned {A B : Type} (m : M A) (k : A -> M B) (w w' : world) (a : A) :
  m w = (Returned a, w') -> (m ≫= k) w = k a w'.
Proof. intros H. rewrite run_bind, H. reflexivity. Qed.

Lemma run_bind_raised {A B : Type} (m : M A) (k : A -> M B) (w w' : world) (e : exn) :
  m w = (Raised e, w') -> (m ≫= k) w = (Raised e, w').
Proof. intros H. rewrite run_bind, H. reflexivity. Qed.

Lemma logged_nil (w : world) : logged [] w = w.
Proof. destruct w. unfold logged. cbn. now rewrite app_nil_r. Qed.

Lemma logged_logged (evs evs' : list event) (w : world) :
  logged evs' (logged evs w) = logged (evs ++ evs') w.
Proof. unfold logged. cbn. now rewrite app_assoc. Qed.

(** ** The resolver *)

Section Resolver.

Variable py_eval : string -> outcome pyval.

Lemma resolve_entry_cases (input : pyval) (o : list pyval) (os : list string) (w : world) :
  (exists add, entry_result py_eval input = Some add /\
     resolve_entry py_eval input o os w
     = (Returned (o ++ add.*1, os ++ add.*2), logged (entry_report py_eval input) w))
  \/ (entry_result py_eval input = None /\
      exists msg, resolve_entry py_eval input o os w = (Raised (ValueError msg), w)).
Proof.
  destruct input as [z|q|s|l|x body|f|r]; cbn.
  - left. eexists. split; [reflexivity|]. now rewrite logged_nil.
  - left. eexists. split; [reflexivity|]. now rewrite logged_nil.
  - left. unfold resolve_entry, try_except, entry_report. cbn.
    rewrite run_bind. unfold lift.
    destruct (py_eval s) as [f|e]; eexists; (split; [reflexivity|]); cbn.
    + now rewrite logged_nil.
    + rewrite !app_nil_r. unfold logged. run_M. cbn. now rewrite <- app_assoc.
  - right. split; [reflexivity|]. eexists. reflexivity.
  - right. split; [reflexivity|]. eexists. reflexivity.
  - right. split; [reflexivity|]. eexists. reflexivity.
  - right. split; [reflexivity|]. eexists. reflexivity.
Qed.

Lemma resolve_entries_total (inputs : list pyval) : forall o os w adds,
  entries_result py_eval inputs = Some adds ->
  resolve_entries py_eval inputs o os w
  = (Returned (o ++ adds.*1, os ++ adds.*2),
     logged (flat_map (entry_report py_eval) inputs) w).
Proof.
  induction inputs as [|input rest IH]; intros o os w adds Hres; cbn in *.
  - injection Hres as <-. cbn. now rewrite !app_nil_r, logged_nil.
  - destruct (entry_result py_eval input) as [add|] eqn:Hadd; [|discriminate].
    destruct (entries_result py_eval rest) as [adds'|] eqn:Hadds; [|discriminate].
    injection Hres as <-.
    destruct (resolve_entry_cases input o os w) as [(add' & Hadd' & Hrun)|(Hnone & _)];
      [|congruence].
    rewrite Hadd in Hadd'. injection Hadd' as <-.
    rewrite (run_bind_returned _ _ _ _ _ Hrun).
    rewrite (IH _ _ _ _ eq_refl), logged_logged.
    now rewrite !fmap_app, !app_assoc.
Qed.

Lemma resolve_entries_raised (inputs : list pyval) : forall o os w,
  entries_result py_eval inputs = None ->
  exists msg w', resolve_entries py_eval inputs o os w = (Raised (ValueError msg), w').
Proof.
  induction inputs as [|input rest IH]; intros o os w Hres; cbn in *; [discriminate|].
  destruct (resolve_entry_cases input o os w) as [(add & Hadd & Hrun)|(Hnone & msg & Hrun)].
  - rewrite Hadd in Hres.
    destruct (entries_result py_eval rest) as [adds|] eqn:Hadds; [discriminate|].
    rewrite (run_bind_returned _ _ _ _ _ Hrun). now apply IH.
  - exists msg, w. now rewrite (run_bind_raised _ _ _ _ _ Hrun).
Qed.

Lemma resolve_entries_returned (inputs : list pyval) (o o' : list pyval)
    (os os' : list string) (w w' : world) :
  resolve_entries py_eval inputs o os w = (Returned (o', os'), w') ->
  exists adds, entries_result py_eval inputs = Some adds /\
    o' = o ++ adds.*1 /\ os' = os ++ adds.*2 /\
    w' = logged (flat_map (entry_report py_eval) inputs) w.
Proof.
  intros Hrun.
  destruct (entries_result py_eval inputs) as [adds|] eqn:Hres.
  - rewrite (resolve_entries_total _ _ _ _ _ Hres) in Hrun.
    injection Hrun as <- <- <-. now exists adds.
  - destruct (resolve_entries_raised _ o os w Hres) as (msg & w'' & Hraise).
    congruence.
Qed.







End Resolver.







(** ** The projection *)

Lemma vars_optical (e : unitCell) :
  vars e !! "cAxis" = Some (ANum (cAxis e))
  /\ vars e !! "optPenDepth" = Some (ANum (optPenDepth e))
  /\ vars e !! "optRefIndex" = Some (AVal (optRefIndex e))
  /\ vars e !! "optRefIndexPerStrain" = Some (AVal (optRefIndexPerStrain e)).
Proof.
  unfold vars. rewrite list_to_map_app.
  repeat split; apply lookup_union_Some_l; vm_compute; reflexivity.
Qed.

(** C9: for every unit cell, the projection on ['optical'] returns a
    mapping whose keys are [cAxis], [optPenDepth], [optRefIndex] and
    [optRefIndexPerStrain] and no other, each with the value of the
    attribute, and changes nothing. *)
Theorem getPropertyStruct_optical (w : world) :
  exists S : gmap string attr,
    getPropertyStruct (Some "optical") w = (Returned S, w)
    /\ dom S = list_to_set ["cAxis"; "optPenDepth"; "optRefIndex"; "optRefIndexPerStrain"]
    /\ S !! "cAxis" = Some (ANum (cAxis (self w)))
    /\ S !! "optPenDepth" = Some (ANum (optPenDepth (self w)))
    /\ S !! "optRefIndex" = Some (AVal (optRefIndex (self w)))
    /\ S !! "optRefIndexPerStrain" = Some (AVal (optRefIndexPerStrain (self w))).
Proof.
  set (keys := ["cAxis"; "optPenDepth"; "optRefIndex"; "optRefIndexPerStrain"]).
  exists (filter (fun kv : string * attr => kv.1 ∈ keys) (vars (self w))).
  destruct (vars_optical (self w)) as (H1 & H2 & H3 & H4).
  assert (Hin : forall k v, k ∈ keys -> vars (self w) !! k = Some v ->
            filter (fun kv : string * attr => kv.1 ∈ keys) (vars (self w)) !! k = Some v).
  { intros k v Hk Hv. apply map_lookup_filter_Some. split; assumption. }
  split; [|split].
  - unfold getPropertyStruct. run_M.
    destruct (decide (Some "optical" = Some "all")) as [Heq|_]; [discriminate|].
    reflexivity.
  - apply set_eq. intros k. rewrite elem_of_dom, elem_of_list_to_set. split.
    + intros [v Hv]. apply map_lookup_filter_Some in Hv as [_ Hk]. exact Hk.
    + intros Hk. unfold keys in Hk.
      repeat (apply elem_of_cons in Hk as [->|Hk];
              [eexists; apply Hin; [unfold keys; repeat constructor|eassumption]|]).
      now apply elem_of_nil in Hk.
  - repeat split; (apply Hin; [unfold keys; repeat constructor|assumption]).
Qed.

(** ** The acoustic impedance *)



(** ** The integrated heat capacity *)

Lemma for_each_invariant {A : Type} (P : world -> Prop) (body : A -> M unit) (l : list A) :
  (forall x w, P w -> P (snd (body x w))) ->
  forall w, P w -> P (snd (for_each l body w)).
Proof.
  intros Hbody. induction l as [|x l IH]; intros w Hw; cbn [for_each].
  - exact Hw.
  - rewrite run_bind. specialize (Hbody x w Hw).
    destruct (body x w) as [[[]|e] w']; cbn [snd] in *.
    + now apply IH.
    + exact Hbody.
Qed.

Lemma list_append_keeps_list (l l' : positive) (x : pyval) (w : world) :
  (exists items, heap w !! l = Some (VList items)) ->
  exists items, heap (snd (list_append l' x w)) !! l = Some (VList items).
Proof.
  intros [items Hl]. cbn. destruct (decide (l' = l)) as [->|Hne].
  - rewrite lookup_alter_eq, Hl. cbn. eauto.
  - rewrite lookup_alter_ne by exact Hne. eauto.
Qed.

Lemma heat_cached_get (integrate : string -> outcome (pyval * string))
    (l : positive) (w : world) :
  heat_cached l w -> intHeatCapacity_get integrate w = (Returned l, w).
Proof.
  intros [Hl [items Hitems]]. unfold intHeatCapacity_get.
  rewrite run_bind. unfold holds_list at 1. rewrite Hl, Hitems.
  rewrite run_bind. cbn [mret M_ret]. unfold getref, gets. rewrite run_bind.
  rewrite Hl. reflexivity.
Qed.

Lemma preserves_bind {A B : Type} (P : world -> Prop) (m : M A) (k : A -> M B) :
  preserves P m -> (forall a, preserves P (k a)) -> preserves P (m ≫= k).
Proof.
  intros Hm Hk w Hw. rewrite run_bind. specialize (Hm w Hw).
  destruct (m w) as [[a|e] w']; cbn [snd] in *; [now apply Hk|exact Hm].
Qed.

Lemma preserves_try_except {A : Type} (P : world -> Prop) (body : M A)
    (handler : exn -> M A) :
  preserves P body -> (forall e, preserves P (handler e)) ->
  preserves P (try_except body handler).
Proof.
  intros Hb Hh w Hw. unfold try_except. specialize (Hb w Hw).
  destruct (body w) as [[a|e] w']; cbn [snd] in *; [exact Hb|now apply Hh].
Qed.

Lemma preserves_for_each {A : Type} (P : world -> Prop) (body : A -> M unit)
    (l : list A) :
  (forall x, preserves P (body x)) -> preserves P (for_each l body).
Proof. intros Hbody w Hw. now apply for_each_invariant. Qed.

Lemma preserves_mret {A : Type} (P : world -> Prop) (a : A) : preserves P (mret a).
Proof. intros w Hw. exact Hw. Qed.

Lemma preserves_raise {A : Type} (P : world -> Prop) (e : exn) :
  preserves P (raise e : M A).
Proof. intros w Hw. exact Hw. Qed.

Lemma preserves_lift {A : Type} (P : world -> Prop) (o : outcome A) :
  preserves P (lift o).
Proof. intros w Hw. exact Hw. Qed.

Lemma preserves_gets {A : Type} (P : world -> Prop) (f : unitCell -> A) :
  preserves P (gets f).
Proof. intros w Hw. exact Hw. Qed.

Lemma preserves_getref (P : world -> Prop) (f : unitCell -> option positive) :
  preserves P (getref f).
Proof.
  intros w Hw. unfold getref. rewrite run_bind. cbn.
  destruct (f (self w)); exact Hw.
Qed.

Lemma heat_cached_emit (l : positive) (ev : event) : preserves (heat_cached l) (emit ev).
Proof. intros w Hw. exact Hw. Qed.

Lemma heat_cached_list_append (l l' : positive) (x : pyval) :
  preserves (heat_cached l) (list_append l' x).
Proof.
  intros w [Hl Hitems]. split; [exact Hl|].
  now apply list_append_keeps_list.
Qed.

Lemma heat_cached_sympy_integrate (integrate : string -> outcome (pyval * string))
    (l : positive) (text : string) :
  preserves (heat_cached l) (sympy_integrate integrate text).
Proof.
  apply preserves_bind; [apply heat_cached_emit|intros _; apply preserves_lift].
Qed.

Lemma heat_recompute (integrate : string -> outcome (pyval * string)) (w : world) :
  holds_list _intHeatCapacity w = (Returned false, w) ->
  exists w1, intHeatCapacity_get integrate w = (Returned (next w), w1)
             /\ heat_cached (next w) w1.
Proof.
  intros Hheld. unfold intHeatCapacity_get.
  rewrite run_bind, Hheld. rewrite run_bind.
  rewrite run_bind. unfold alloc at 1.
  rewrite run_bind. unfold setattr at 1.
  rewrite run_bind. unfold alloc at 1. cbn [self heap next trace].
  rewrite run_bind. unfold setattr at 1. cbn [self heap next trace].
  match goal with |- context [try_except ?b ?h ?w0] =>
    assert (Hinv : heat_cached (next w) (snd (try_except b h w0)));
    [|assert (Hret : fst (try_except b h w0) = Returned tt)]
  end.
  - apply preserves_try_except.
    + apply preserves_bind; [apply preserves_gets|]. intros strs.
      apply preserves_for_each. intros hcs.
      apply preserves_bind; [apply preserves_lift|]. intros text.
      apply preserves_bind; [apply heat_cached_sympy_integrate|]. intros [f s].
      apply preserves_bind; [apply preserves_getref|]. intros l.
      apply preserves_bind; [apply heat_cached_list_append|]. intros _.
      apply preserves_bind; [apply preserves_getref|]. intros l'.
      apply heat_cached_list_append.
    + intros e. apply preserves_bind; [apply heat_cached_emit|].
      intros _. apply heat_cached_emit.
    + split; [reflexivity|]. cbn [heap].
      exists []. rewrite lookup_insert_ne by lia. apply lookup_insert_eq.
  - unfold try_except.
    match goal with |- context [let (_, _) := ?m ?w0 in _] =>
      destruct (m w0) as [[[]|e] w'] end; reflexivity.
  - destruct (try_except _ _ _) as [o w1]. cbn [fst snd] in *. subst o.
    exists w1. split; [|exact Hinv].
    unfold getref. rewrite run_bind. cbn [gets].
    destruct Hinv as [-> _]. reflexivity.
Qed.

(** C6: two reads of [intHeatCapacity] in succession return the same list
    object, and the second read changes nothing: neither the object nor its
    contents, and no integration is run, whatever the first read did. A
    first read that finds the list in place changes nothing either. *)
Theorem intHeatCapacity_get_twice (integrate : string -> outcome (pyval * string))
    (w : world) :
  exists (l : positive) (w1 : world),
    intHeatCapacity_get integrate w = (Returned l, w1)
    /\ intHeatCapacity_get integrate w1 = (Returned l, w1)
    /\ heat_cached l w1
    /\ (forall l0, heat_cached l0 w -> l = l0 /\ w1 = w).
Proof.
  destruct (holds_list _intHeatCapacity w) as [cached w0] eqn:Hheld.
  assert (Hw0 : w0 = w) by (unfold holds_list in Hheld; congruence). subst w0.
  assert (Hcase : (exists l, heat_cached l w) \/ cached = Returned false).
  { unfold holds_list in Hheld. injection Hheld as <-. unfold heat_cached.
    destruct (_intHeatCapacity (self w)) as [l|]; [|now right].
    destruct (heap w !! l) as [[| | |items| | |]|] eqn:Hitems; try now right.
    left. exists l. split; [reflexivity|]. now exists items. }
  destruct Hcase as [[l Hc]| ->].
  - exists l, w. rewrite (heat_cached_get _ _ _ Hc).
    split; [reflexivity|]. split; [reflexivity|]. split; [exact Hc|].
    intros l0 [Hl0 _]. destruct Hc as [Hl _]. split; congruence.
  - destruct (heat_recompute integrate w Hheld) as (w1 & Hrun & Hc).
    exists (next w), w1. rewrite Hrun, (heat_cached_get _ _ _ Hc).
    split; [reflexivity|]. split; [reflexivity|]. split; [exact Hc|].
    intros l0 [Hl0 [items Hitems]]. exfalso.
    unfold holds_list in Hheld. rewrite Hl0, Hitems in Hheld. discriminate.
Qed.

Lemma checkCellArrayInput_returned (py_eval : string -> outcome pyval) (v : pyval)
    (fs : list pyval) (ss : list string) (w w' : world) :
  checkCellArrayInput py_eval v w = (Returned (fs, ss), w') ->
  exists adds, entries_result py_eval (as_list v) = Some adds /\
    fs = adds.*1 /\ ss = adds.*2 /\
    w' = logged (flat_map (entry_report py_eval) (as_list v)) w.
Proof.
  intros H. unfold checkCellArrayInput in H. fold (as_list v) in H.
  apply resolve_entries_returned in H as (adds & Hadds & -> & -> & ->).
  now exists adds.
Qed.

Lemma bind_returned_inv {A B : Type} (m : M A) (k : A -> M B) (w w2 : world) (b : B) :
  (m ≫= k) w = (Returned b, w2) ->
  exists a w1, m w = (Returned a, w1) /\ k a w1 = (Returned b, w2).
Proof.
  rewrite run_bind. destruct (m w) as [[a|e] w1]; [eauto|discriminate].
Qed.

Lemma setattr_returned {A : Type} (f : A -> unitCell -> unitCell) (v : A)
    (w w' : world) (u : unit) :
  setattr f v w = (Returned u, w') ->
  w' = World (f v (self w)) (heap w) (next w) (trace w).
Proof. unfold setattr. congruence. Qed.

Lemma gets_returned {A : Type} (f : unitCell -> A) (w w' : world) (a : A) :
  gets f w = (Returned a, w') -> a = f (self w) /\ w' = w.
Proof. unfold gets. intros H. injection H as <- <-. auto. Qed.

Lemma lift_returned {A : Type} (o : outcome A) (w w' : world) (a : A) :
  lift o w = (Returned a, w') -> o = Returned a /\ w' = w.
Proof. unfold lift. intros H. injection H as <- <-. auto. Qed.

Lemma py_div_returned (a b r : Q) :
  py_div a b = Returned r -> ~ b == 0 /\ r = a / b.
Proof.
  unfold py_div. destruct (Qeq_bool b 0) eqn:Hb; [discriminate|].
  intros H. injection H as <-. split; [|reflexivity].
  intros Hz. apply Qeq_bool_iff in Hz. congruence.
Qed.

(** Unfolding the method [f] in the hypothesis [H], by an equation between
    the two statements that is checked by unfolding [f] alone. *)
Ltac unfold_method f H :=
  let T := type of H in
  let T' := eval cbv beta delta [f] in T in
  let E := fresh "E" in
  assert (E : T' = T) by exact (@eq_refl _ T');
  rewrite <- E in H; clear E.

(** One step of a run that returned: the first operation returned too. *)
Ltac step H :=
  let a := fresh "a" in
  let wi := fresh "w" in
  let Hs := fresh "Hs" in
  apply bind_returned_inv in H as (a & wi & Hs & H);
  try (match type of a with unit => destruct a end);
  first
    [ apply setattr_returned in Hs; subst wi
    | apply gets_returned in Hs as [-> ->]
    | idtac ];
  cbn [self heap next trace] in H.

Lemma calcSpringConst_returned (w w' : world) :
  calcSpringConst w = (Returned tt, w') ->
  ~ cAxis (self w) == 0 /\
  exists k',
    nd_setitem (springConst (self w)) 0
      (mass (self w) * (_soundVel (self w) / cAxis (self w)) ^ 2) = Returned k'
    /\ w' = World (set_springConst k' (self w)) (heap w) (next w) (trace w).
Proof.
  intros H. unfold_method calcSpringConst H.
  step H. step H. step H. step H.
  apply lift_returned in Hs as [Hdiv ->]. apply py_div_returned in Hdiv as [Hc ->].
  step H. step H. apply lift_returned in Hs as [Hset ->].
  apply setattr_returned in H. split; [exact Hc|]. eauto.
Qed.

Lemma soundVel_set_returned (v : Q) (w w' : world) :
  soundVel_set v w = (Returned tt, w') ->
  ~ cAxis (self w) == 0 /\
  exists k',
    nd_setitem (springConst (self w)) 0
      (mass (self w) * (v / cAxis (self w)) ^ 2) = Returned k'
    /\ w' = World (set_springConst k' (set_soundVel v (self w)))
              (heap w) (next w) (trace w).
Proof.
  intros H. unfold_method soundVel_set H. step H.
  apply calcSpringConst_returned in H as (Hc & k' & Hset & ->).
  cbn [self heap next trace] in *. destruct (self w). cbn in *. eauto.
Qed.

Lemma init_properties_returned (py_eval : string -> outcome pyval)
    (ID_ name_ : string) (cAxis_ : Q) (kw : kwargs) (w w1 : world) :
  init_properties py_eval ID_ name_ cAxis_ kw w = (Returned tt, w1) ->
  exists a1 a2 a3 a4,
    entries_result py_eval (as_list (default (VInt 0) (kw_heatCapacity kw))) = Some a1
    /\ entries_result py_eval (as_list (default (VInt 0) (kw_thermCond kw))) = Some a2
    /\ entries_result py_eval (as_list (default (VInt 0) (kw_linThermExp kw))) = Some a3
    /\ entries_result py_eval (as_list (default (VInt 0) (kw_subSystemCoupling kw))) = Some a4
    /\ heatCapacity (self w1) = a1.*1 /\ heatCapacityStr (self w1) = a1.*2
    /\ thermCond (self w1) = a2.*1 /\ thermCondStr (self w1) = a2.*2
    /\ linThermExp (self w1) = a3.*1 /\ linThermExpStr (self w1) = a3.*2
    /\ subSystemCoupling (self w1) = a4.*1 /\ subSystemCouplingStr (self w1) = a4.*2
    /\ ~ cAxis_ == 0
    /\ cAxis (self w1) = cAxis_.
Proof.
  intros H. unfold_method init_properties H.
  do 13 step H.
  step H. apply soundVel_set_returned in Hs as (Hc & k' & Hset & ->).
  cbn [self heap next trace] in H.
  do 4 step H.
  step H. destruct a as [f1 s1].
  apply checkCellArrayInput_returned in Hs as (a1 & Ha1 & -> & -> & ->).
  unfold logged in H. cbn [self heap next trace] in H. do 2 step H.
  step H. destruct a as [f2 s2].
  apply checkCellArrayInput_returned in Hs as (a2 & Ha2 & -> & -> & ->).
  unfold logged in H. cbn [self heap next trace] in H. do 2 step H.
  step H. destruct a as [f3 s3].
  apply checkCellArrayInput_returned in Hs as (a3 & Ha3 & -> & -> & ->).
  unfold logged in H. cbn [self heap next trace] in H. do 2 step H.
  step H. destruct a as [f4 s4].
  apply checkCellArrayInput_returned in Hs as (a4 & Ha4 & -> & -> & ->).
  unfold logged in H. cbn [self heap next trace] in H. step H.
  apply setattr_returned in H. subst w1. cbn [self heap next trace].
  exists a1, a2, a3, a4. repeat split; try assumption; try reflexivity.
Qed.

(** Unfolding the method [f] in the goal, in the same way. *)
Ltac unfold_method_goal f :=
  match goal with
  | |- ?G =>
      let G' := eval cbv beta delta [f] in G in
      let E := fresh "E" in
      assert (E : G' = G) by exact (@eq_refl _ G');
      rewrite <- E; clear E
  end.

(** C3: once the four lists of the subsystems are resolved, the
    construction ends in one of two ways. When the four lengths agree it
    succeeds, [numSubSystems] is the common length and the lists are the
    resolved ones. When they do not, it fails with the [ValueError] of the
    subsystem count, and nothing is done after the resolution. *)
Theorem init_subsystem_count (py_eval : string -> outcome pyval)
    (ID_ name_ : string) (cAxis_ : Q) (kw : kwargs) (w w1 : world) :
  init_properties py_eval ID_ name_ cAxis_ kw w = (Returned tt, w1) ->
  let n := length (heatCapacity (self w1)) in
  let agree := n = length (thermCond (self w1))
               /\ n = length (linThermExp (self w1))
               /\ n = length (subSystemCoupling (self w1)) in
  (agree ->
   exists w2,
     init py_eval ID_ name_ cAxis_ kw w = (Returned tt, w2)
     /\ numSubSystems (self w2) = n
     /\ heatCapacity (self w2) = heatCapacity (self w1)
     /\ thermCond (self w2) = thermCond (self w1)
     /\ linThermExp (self w2) = linThermExp (self w1)
     /\ subSystemCoupling (self w2) = subSystemCoupling (self w1))
  /\ (~ agree ->
      init py_eval ID_ name_ cAxis_ kw w = (Raised (ValueError msg_subsystems), w1)).
Proof.
  intros H n agree.
  unfold_method_goal init.
  rewrite !(run_bind_returned _ _ _ _ _ H). cbv beta.
  unfold init_subsystems, init_geometry. run_M.
  fold n.
  destruct (Nat.eqb_spec n (length (thermCond (self w1)))) as [H1|H1];
  destruct (Nat.eqb_spec n (length (linThermExp (self w1)))) as [H2|H2];
  destruct (Nat.eqb_spec n (length (subSystemCoupling (self w1)))) as [H3|H3];
    cbn [andb]; (split; [intros Hagree|intros Hagree]);
    try (exfalso; unfold agree in Hagree; tauto);
    try reflexivity.
  eexists. split; [reflexivity|]. cbn [self]. destruct (self w1). cbn.
  repeat split; reflexivity.
Qed.

Lemma init_subsystem_count_witness :
  init_properties example_eval "uc" "cell" 1 example_mismatch new_world
  = (Returned tt,
     snd (init_properties example_eval "uc" "cell" 1 example_mismatch new_world))
  /\ init example_eval "uc" "cell" 1 example_mismatch new_world
     = (Raised (ValueError msg_subsystems),
        snd (init_properties example_eval "uc" "cell" 1 example_mismatch new_world)).
Proof.
  assert (H : init_properties example_eval "uc" "cell" 1 example_mismatch new_world
              = (Returned tt,
                 snd (init_properties example_eval "uc" "cell" 1 example_mismatch
                        new_world)))
    by (vm_compute; reflexivity).
  split; [exact H|].
  apply (proj2 (init_subsystem_count example_eval "uc" "cell" 1 example_mismatch
                  new_world _ H)).
  intros [Hn _]. vm_compute in Hn. discriminate.
Defined.



(** The construction after the resolution of the four lists. *)
Lemma init_after_properties (py_eval : string -> outcome pyval)
    (ID_ name_ : string) (cAxis_ : Q) (kw : kwargs) (w w1 : world) :
  init_properties py_eval ID_ name_ cAxis_ kw w = (Returned tt, w1) ->
  init py_eval ID_ name_ cAxis_ kw w
  = let n := length (heatCapacity (self w1)) in
    if ((n =? length (thermCond (self w1)))
        && (n =? length (linThermExp (self w1)))
        && (n =? length (subSystemCoupling (self w1))))%nat
    then (Returned tt,
          World (set_volume (aAxis (self w1) * bAxis (self w1) * cAxis (self w1))
                   (set_area (aAxis (self w1) * bAxis (self w1))
                      (set_numSubSystems n (self w1))))
            (heap w1) (next w1) (trace w1))
    else (Raised (ValueError msg_subsystems), w1).
Proof.
  intros H. unfold_method_goal init.
  rewrite !(run_bind_returned _ _ _ _ _ H). cbv beta zeta.
  unfold init_subsystems, init_geometry. run_M.
  destruct ((length (heatCapacity (self w1)) =? length (thermCond (self w1)))
            && (length (heatCapacity (self w1)) =? length (linThermExp (self w1)))
            && (length (heatCapacity (self w1)) =? length (subSystemCoupling (self w1))))%nat;
    [|reflexivity].
  cbn [self]. destruct (self w1). reflexivity.
Qed.

(** What a construction that succeeded went through, and what it left. *)
Lemma init_returned (py_eval : string -> outcome pyval)
    (ID_ name_ : string) (cAxis_ : Q) (kw : kwargs) (w w' : world) :
  init py_eval ID_ name_ cAxis_ kw w = (Returned tt, w') ->
  exists w1 n,
    init_properties py_eval ID_ name_ cAxis_ kw w = (Returned tt, w1)
    /\ n = length (heatCapacity (self w1))
    /\ n = length (thermCond (self w1))
    /\ n = length (linThermExp (self w1))
    /\ n = length (subSystemCoupling (self w1))
    /\ w' = World (set_volume (aAxis (self w1) * bAxis (self w1) * cAxis (self w1))
                     (set_area (aAxis (self w1) * bAxis (self w1))
                        (set_numSubSystems n (self w1))))
              (heap w1) (next w1) (trace w1).
Proof.
  intros H.
  assert (Hp : exists w1, init_properties py_eval ID_ name_ cAxis_ kw w = (Returned tt, w1)).
  { pose proof H as H'. unfold_method init H'.
    apply bind_returned_inv in H' as ([] & w1 & Hp & _). eauto. }
  destruct Hp as [w1 Hp]. rewrite (init_after_properties _ _ _ _ _ _ _ Hp) in H.
  cbv zeta in H. exists w1, (length (heatCapacity (self w1))).
  split; [exact Hp|]. split; [reflexivity|].
  destruct ((length (heatCapacity (self w1)) =? length (thermCond (self w1)))
            && (length (heatCapacity (self w1)) =? length (linThermExp (self w1)))
            && (length (heatCapacity (self w1)) =? length (subSystemCoupling (self w1))))%nat
    eqn:Hb.
  - apply andb_prop in Hb as [Hb H3]. apply andb_prop in Hb as [H1 H2].
    apply Nat.eqb_eq in H1, H2, H3.
    apply (f_equal snd) in H. cbn [snd] in H. auto.
  - apply (f_equal fst) in H. cbn [fst] in H. discriminate H.
Qed.

Lemma alloc_returned (v : pyval) (w w' : world) (l : positive) :
  alloc v w = (Returned l, w') ->
  l = next w /\
  w' = World (self w) (<[next w := v]> (heap w)) (Pos.succ (next w)) (trace w).
Proof. unfold alloc. intros H. injection H as <- <-. auto. Qed.

Lemma intHeatCapacity_set_returned (py_eval : string -> outcome pyval) (v : pyval)
    (w w' : world) :
  intHeatCapacity_set py_eval v w = (Returned tt, w') ->
  exists adds,
    entries_result py_eval (as_list v) = Some adds
    /\ _intHeatCapacity (self w') = Some (next w)
    /\ intHeatCapacityStr (self w') = Some (Pos.succ (next w))
    /\ heap w' !! next w = Some (VList adds.*1)
    /\ heap w' !! Pos.succ (next w) = Some (VList (VStr <$> adds.*2)).
Proof.
  intros H. unfold_method intHeatCapacity_set H.
  step H. destruct a as [f s].
  apply checkCellArrayInput_returned in Hs as (adds & Hadds & -> & -> & ->).
  unfold logged in H. cbn [self heap next trace] in H.
  step H. apply alloc_returned in Hs as [-> ->]. cbn [self heap next trace] in H.
  step H. apply alloc_returned in Hs as [-> ->]. cbn [self heap next trace] in H.
  step H. apply setattr_returned in H. subst w'. cbn [self heap next trace].
  exists adds. split; [exact Hadds|].
  split; [destruct (self w); reflexivity|].
  split; [destruct (self w); reflexivity|].
  split.
  - rewrite lookup_insert_ne by lia. apply lookup_insert_eq.
  - apply lookup_insert_eq.
Qed.

Lemma intLinThermExp_set_returned (py_eval : string -> outcome pyval) (v : pyval)
    (w w' : world) :
  intLinThermExp_set py_eval v w = (Returned tt, w') ->
  exists adds,
    entries_result py_eval (as_list v) = Some adds
    /\ _intLinThermExp (self w') = Some (next w)
    /\ intLinThermExpStr (self w') = Some (Pos.succ (next w))
    /\ heap w' !! next w = Some (VList adds.*1)
    /\ heap w' !! Pos.succ (next w) = Some (VList (VStr <$> adds.*2)).
Proof.
  intros H. unfold_method intLinThermExp_set H.
  step H. destruct a as [f s].
  apply checkCellArrayInput_returned in Hs as (adds & Hadds & -> & -> & ->).
  unfold logged in H. cbn [self heap next trace] in H.
  step H. apply alloc_returned in Hs as [-> ->]. cbn [self heap next trace] in H.
  step H. apply alloc_returned in Hs as [-> ->]. cbn [self heap next trace] in H.
  step H. apply setattr_returned in H. subst w'. cbn [self heap next trace].
  exists adds. split; [exact Hadds|].
  split; [destruct (self w); reflexivity|].
  split; [destruct (self w); reflexivity|].
  split.
  - rewrite lookup_insert_ne by lia. apply lookup_insert_eq.
  - apply lookup_insert_eq.
Qed.


(** ** Atoms *)


(** The loop of [addAtom] over the atoms from [i] on adds their masses to
    [mass]. *)
Lemma mass_loop (k : nat) : forall (i : nat) (w : world) (l : list (atom * pyval * string)),
  atoms (self w) = l -> (i + k <= length l)%nat ->
  for_each (seq i k) (fun i : nat =>
    m ← gets mass;
    l ← gets atoms;
    match l !! i with
    | Some (a, _, _) => setattr set_mass (m + atom_mass a)
    | None => raise IndexError
    end) w
  = (Returned tt,
     World (set_mass (total_mass (take k (drop i l)) (mass (self w))) (self w))
       (heap w) (next w) (trace w)).
Proof.
  induction k as [|k IH]; intros i w l Hl Hlen.
  - destruct w as [e h n t]. cbn in *. destruct e. reflexivity.
  - cbn [seq for_each]. rewrite run_bind.
    destruct (lookup_lt_is_Some_2 l i ltac:(lia)) as [[[a f] s] Hi].
    assert (Hbody : (gets mass ≫= fun m => gets atoms ≫= fun l0 =>
               match l0 !! i with
               | Some (a, _, _) => setattr set_mass (m + atom_mass a)
               | None => raise IndexError
               end) w
             = (Returned tt,
                World (set_mass (mass (self w) + atom_mass a) (self w))
                  (heap w) (next w) (trace w))).
    { run_M. rewrite Hl, Hi. reflexivity. }
    rewrite Hbody.
    rewrite (IH (S i) _ l); [| cbn; destruct (self w); exact Hl | lia].
    cbn [self heap next trace].
    rewrite (drop_S l _ i Hi). cbn [take total_mass fold_left fst].
    destruct (self w). reflexivity.
Qed.

Lemma run_gets {A B : Type} (f : unitCell -> A) (k : A -> M B) (w : world) :
  (gets f ≫= k) w = k (f (self w)) w.
Proof. reflexivity. Qed.

Lemma run_setattr {A B : Type} (f : A -> unitCell -> unitCell) (v : A)
    (k : unit -> M B) (w : world) :
  (setattr f v ≫= k) w = k tt (World (f v (self w)) (heap w) (next w) (trace w)).
Proof. reflexivity. Qed.

Lemma run_lift {A B : Type} (a : A) (k : A -> M B) (w : world) :
  (lift (Returned a) ≫= k) w = k a w.
Proof. reflexivity. Qed.

Lemma py_div_nonzero (a b : Q) : ~ b == 0 -> py_div a b = Returned (a / b).
Proof.
  intros Hb. unfold py_div. destruct (Qeq_bool b 0) eqn:Hz; [|reflexivity].
  apply Qeq_bool_iff in Hz. contradiction.
Qed.

Lemma py_div_zero (a b : Q) : b == 0 -> py_div a b = Raised ZeroDivisionError.
Proof.
  intros Hb. unfold py_div. apply Qeq_bool_iff in Hb. now rewrite Hb.
Qed.

(** A run of [calcSpringConst] on a cell whose [cAxis] is not zero and whose
    array of spring constants is not empty. *)
Lemma calcSpringConst_runs (w : world) :
  ~ cAxis (self w) == 0 ->
  (0 < length (nd_items (springConst (self w))))%nat ->
  calcSpringConst w
  = (Returned tt,
     World
       (set_springConst
          (NdArray (nd_dtype (springConst (self w)))
             (<[0%nat := np_cast (nd_dtype (springConst (self w)))
                           (mass (self w) * (_soundVel (self w) / cAxis (self w)) ^ 2)]>
                (nd_items (springConst (self w)))))
          (self w))
       (heap w) (next w) (trace w)).
Proof.
  intros Hc Hk. unfold calcSpringConst.
  rewrite !run_gets, (py_div_nonzero _ _ Hc), run_lift, run_gets.
  unfold nd_setitem. apply Nat.ltb_lt in Hk. rewrite Hk.
  rewrite run_lift. reflexivity.
Qed.

(** Reading the attributes of a cell that is given by its fields. *)
Ltac simpl_cell :=
  cbn [self heap next trace ID name cAxis aAxis bAxis atoms numAtoms mass
     density springConst debWalFac _soundVel phononDamping optPenDepth
     optRefIndex optRefIndexPerStrain heatCapacity heatCapacityStr
     thermCond thermCondStr linThermExp linThermExpStr subSystemCoupling
     subSystemCouplingStr numSubSystems area volume _intHeatCapacity
     intHeatCapacityStr _intLinThermExp intLinThermExpStr set_ID set_name
     set_cAxis set_aAxis set_bAxis set_atoms set_numAtoms set_mass
     set_density set_springConst set_debWalFac set_soundVel
     set_phononDamping set_optPenDepth set_optRefIndex
     set_optRefIndexPerStrain set_heatCapacity set_heatCapacityStr
     set_thermCond set_thermCondStr set_linThermExp set_linThermExpStr
     set_subSystemCoupling set_subSystemCouplingStr set_numSubSystems
     set_area set_volume set_intHeatCapacity set_intHeatCapacityStr
     set_intLinThermExp set_intLinThermExpStr].

Ltac simpl_cell_in H :=
  cbn [self heap next trace ID name cAxis aAxis bAxis atoms numAtoms mass
     density springConst debWalFac _soundVel phononDamping optPenDepth
     optRefIndex optRefIndexPerStrain heatCapacity heatCapacityStr
     thermCond thermCondStr linThermExp linThermExpStr subSystemCoupling
     subSystemCouplingStr numSubSystems area volume _intHeatCapacity
     intHeatCapacityStr _intLinThermExp intLinThermExpStr set_ID set_name
     set_cAxis set_aAxis set_bAxis set_atoms set_numAtoms set_mass
     set_density set_springConst set_debWalFac set_soundVel
     set_phononDamping set_optPenDepth set_optRefIndex
     set_optRefIndexPerStrain set_heatCapacity set_heatCapacityStr
     set_thermCond set_thermCondStr set_linThermExp set_linThermExpStr
     set_subSystemCoupling set_subSystemCouplingStr set_numSubSystems
     set_area set_volume set_intHeatCapacity set_intHeatCapacityStr
     set_intLinThermExp set_intLinThermExpStr] in H.

Lemma resolve_position_spec (py_eval : string -> outcome pyval) (position : pyval)
    (w : world) :
  resolve_position py_eval position w
  = match position_entry py_eval position with
    | Some (pos, text, evs) => (Returned (pos, text), logged evs w)
    | None =>
        (Raised (ValueError (if isfunction position then msg_use_string
                             else msg_bad_position)), w)
    end.
Proof.
  destruct position as [z|q|s|li|x body|f|r]; cbn; try reflexivity.
  - now rewrite logged_nil.
  - now rewrite logged_nil.
  - unfold resolve_position, try_except. cbn [isfunction]. rewrite run_bind.
    unfold lift. destruct (py_eval s) as [f|e].
    + cbn. now rewrite logged_nil.
    + run_M. unfold logged. cbn. now rewrite <- app_assoc.
Qed.


Lemma atoms_kept_setattr {A : Type} (f : A -> unitCell -> unitCell) (v : A)
    (l : list (atom * pyval * string)) :
  (forall e, atoms (f v e) = atoms e) ->
  preserves (fun w => atoms (self w) = l) (setattr f v).
Proof. intros Hf w Hw. cbn. now rewrite Hf. Qed.

Lemma atoms_kept_calcSpringConst (l : list (atom * pyval * string)) :
  preserves (fun w => atoms (self w) = l) calcSpringConst.
Proof.
  unfold calcSpringConst.
  repeat (apply preserves_bind; [first [apply preserves_gets|apply preserves_lift]|intros ?]).
  apply atoms_kept_setattr. intros e. destruct e. reflexivity.
Qed.





(** C2 at [unitCell('uc', 'cell', 1, soundVel=1.5)] and an atom of mass
    [1e20]: [addAtom] returns, the mass is [1] and the sound velocity over
    the axis [1.5], so the spring constant of the claim is [2.25]; the array
    of the cell, made of the integer [0], holds [2]. *)
Lemma addAtom_springConst_truncated :
  addAtom example_eval example_atom (VFloat (1 # 2)) example_fast_cell
  = (Returned tt, example_loaded_cell)
  /\ density (self example_loaded_cell)
     == atom_mass example_atom / volume (self example_fast_cell)
  /\ mass (self example_loaded_cell)
     == atom_mass example_atom * 1 * angstrom ^ 2 / area (self example_fast_cell)
  /\ mass (self example_loaded_cell)
     * (_soundVel (self example_loaded_cell) / cAxis (self example_loaded_cell)) ^ 2
     == 9 # 4
  /\ springConst (self example_loaded_cell) = NdArray int64 [2].
Proof.
  split; [vm_compute; reflexivity|]. split; [vm_compute; reflexivity|].
  split; [vm_compute; reflexivity|]. split; vm_compute; reflexivity.
Qed.

(** C5 at [unitCell('uc', 'cell', 1)] with an atom of mass [1e20]: the
    assignment [soundVel = 1.5] returns and leaves the mass [1] and the
    density, so the spring constant of the claim is [2.25]; the array of the
    cell holds [2]. *)
Lemma soundVel_set_springConst_truncated :
  exists w',
    soundVel_set (3 # 2) example_still_cell = (Returned tt, w')
    /\ mass (self w') = mass (self example_still_cell)
    /\ density (self w') = density (self example_still_cell)
    /\ _soundVel (self w') = 3 # 2
    /\ mass (self w') * (_soundVel (self w') / cAxis (self w')) ^ 2 == 9 # 4
    /\ springConst (self w') = NdArray int64 [2].
Proof.
  eexists. split; [vm_compute; reflexivity|].
  split; [vm_compute; reflexivity|]. split; [vm_compute; reflexivity|].
  split; [vm_compute; reflexivity|]. split; vm_compute; reflexivity.
Qed.



(** * Further properties *)

(** ** The resolver *)







(** ** The constructor *)

Lemma checkCellArrayInput_total (py_eval : string -> outcome pyval) (v : pyval)
    (adds : list (pyval * string)) (w : world) :
  entries_result py_eval (as_list v) = Some adds ->
  checkCellArrayInput py_eval v w
  = (Returned (adds.*1, adds.*2),
     logged (flat_map (entry_report py_eval) (as_list v)) w).
Proof.
  intros H. unfold checkCellArrayInput. fold (as_list v).
  now rewrite (resolve_entries_total _ _ _ _ _ _ H).
Qed.

Lemma soundVel_set_runs (v : Q) (w : world) :
  ~ cAxis (self w) == 0 ->
  (0 < length (nd_items (springConst (self w))))%nat ->
  soundVel_set v w
  = (Returned tt,
     World
       (set_springConst
          (NdArray (nd_dtype (springConst (self w)))
             (<[0%nat := np_cast (nd_dtype (springConst (self w)))
                           (mass (self w) * (v / cAxis (self w)) ^ 2)]>
                (nd_items (springConst (self w)))))
          (set_soundVel v (self w)))
       (heap w) (next w) (trace w)).
Proof.
  intros Hc Hk. unfold soundVel_set. rewrite run_setattr.
  rewrite calcSpringConst_runs; cbn [self heap next trace];
    destruct (self w); try assumption. reflexivity.
Qed.

Lemma soundVel_set_zero_axis (v : Q) (w : world) :
  cAxis (self w) == 0 ->
  soundVel_set v w
  = (Raised ZeroDivisionError,
     World (set_soundVel v (self w)) (heap w) (next w) (trace w)).
Proof.
  intros Hc. unfold soundVel_set. rewrite run_setattr.
  unfold calcSpringConst. rewrite !run_gets. cbn [self heap next trace].
  rewrite run_bind. unfold lift. rewrite py_div_zero; [reflexivity|].
  destruct (self w). exact Hc.
Qed.

(** The attributes after [__init__] resolved its four lists. *)
Lemma init_properties_runs (py_eval : string -> outcome pyval)
    (ID_ name_ : string) (c : Q) (kw : kwargs) (w : world)
    (a1 a2 a3 a4 : list (pyval * string)) :
  ~ c == 0 ->
  entries_result py_eval (as_list (default (VInt 0) (kw_heatCapacity kw))) = Some a1 ->
  entries_result py_eval (as_list (default (VInt 0) (kw_thermCond kw))) = Some a2 ->
  entries_result py_eval (as_list (default (VInt 0) (kw_linThermExp kw))) = Some a3 ->
  entries_result py_eval (as_list (default (VInt 0) (kw_subSystemCoupling kw))) = Some a4 ->
  init_properties py_eval ID_ name_ c kw w
  = (Returned tt,
     World
       (UnitCell ID_ name_ c (default c (kw_aAxis kw))
          (default (default c (kw_aAxis kw)) (kw_bAxis kw))
          [] 0 0 0 (NdArray int64 [0])
          (default 0 (kw_debWalFac kw)) (default 0 (kw_soundVel kw))
          (default 0 (kw_phononDamping kw)) (default 0 (kw_optPenDepth kw))
          (default (VInt 0) (kw_optRefIndex kw))
          (default (VInt 0) (kw_optRefIndexPerStrain kw))
          a1.*1 a1.*2 a2.*1 a2.*2 a3.*1 a3.*2 a4.*1 a4.*2
          (numSubSystems (self w)) (area (self w)) (volume (self w))
          (_intHeatCapacity (self w)) (intHeatCapacityStr (self w))
          (_intLinThermExp (self w)) (intLinThermExpStr (self w)))
       (heap w) (next w)
       (trace w
        ++ flat_map (entry_report py_eval) (as_list (default (VInt 0) (kw_heatCapacity kw)))
        ++ flat_map (entry_report py_eval) (as_list (default (VInt 0) (kw_thermCond kw)))
        ++ flat_map (entry_report py_eval) (as_list (default (VInt 0) (kw_linThermExp kw)))
        ++ flat_map (entry_report py_eval)
             (as_list (default (VInt 0) (kw_subSystemCoupling kw))))).
Proof.
  intros Hc H1 H2 H3 H4. unfold_method_goal init_properties.
  destruct w as [e h n t]. destruct e.
  repeat (first [rewrite run_setattr | rewrite run_gets]; simpl_cell).
  rewrite run_bind, soundVel_set_runs; simpl_cell; [|exact Hc|cbn; lia].
  repeat (first [rewrite run_setattr | rewrite run_gets]; simpl_cell).
  rewrite run_bind, (checkCellArrayInput_total _ _ _ _ H1). unfold logged. simpl_cell.
  repeat (first [rewrite run_setattr | rewrite run_gets]; simpl_cell).
  rewrite run_bind, (checkCellArrayInput_total _ _ _ _ H2). unfold logged. simpl_cell.
  repeat (first [rewrite run_setattr | rewrite run_gets]; simpl_cell).
  rewrite run_bind, (checkCellArrayInput_total _ _ _ _ H3). unfold logged. simpl_cell.
  repeat (first [rewrite run_setattr | rewrite run_gets]; simpl_cell).
  rewrite run_bind, (checkCellArrayInput_total _ _ _ _ H4). unfold logged. simpl_cell.
  rewrite run_setattr. simpl_cell. unfold setattr. simpl_cell.
  rewrite <- !app_assoc. reflexivity.
Qed.



(** X5: with a [cAxis] that is zero the constructor raises
    [ZeroDivisionError], whatever the other arguments are: the assignment of
    the sound velocity divides by the axis before any list is resolved, so
    nothing is printed either. *)
Theorem unitCell_new_zero_axis (py_eval : string -> outcome pyval)
    (ID_ name_ : string) (c : Q) (kw : kwargs) :
  c == 0 ->
  fst (unitCell_new py_eval ID_ name_ c kw) = Raised ZeroDivisionError
  /\ trace (snd (unitCell_new py_eval ID_ name_ c kw)) = [].
Proof.
  intros Hc. unfold unitCell_new. unfold_method_goal init.
  unfold_method_goal init_properties.
  rewrite run_bind.
  repeat (first [rewrite run_setattr | rewrite run_gets]; simpl_cell).
  rewrite run_bind, soundVel_set_zero_axis; simpl_cell; [|exact Hc].
  split; reflexivity.
Qed.

Lemma unitCell_new_zero_axis_witness :
  0 == 0
  /\ fst (unitCell_new example_eval "uc" "cell" 0 example_mismatch)
     = Raised ZeroDivisionError.
Proof.
  split; [reflexivity|].
  exact (proj1 (unitCell_new_zero_axis example_eval "uc" "cell" 0 example_mismatch
                  (Qeq_refl 0))).
Defined.

(** ** Adding atoms *)

Lemma position_entry_resolvable (py_eval : string -> outcome pyval) (v : pyval) :
  resolvable v = false -> position_entry py_eval v = None.
Proof. destruct v; cbn; intros H; first [reflexivity|discriminate H]. Qed.


(** Every run of [addAtom] on a cell that counts its atoms right. *)
Lemma addAtom_outcome (py_eval : string -> outcome pyval) (a : atom) (position : pyval)
    (w : world) :
  numAtoms (self w) = length (atoms (self w)) ->
  addAtom py_eval a position w
  = match position_entry py_eval position with
    | None =>
        (Raised (ValueError (if isfunction position then msg_use_string
                             else msg_bad_position)), w)
    | Some (pos, text, evs) =>
        let l := atoms (self w) ++ [(a, pos, text)] in
        let raw := total_mass l 0 in
        let counted := set_mass raw (set_numAtoms (S (numAtoms (self w)))
                                       (set_atoms l (self w))) in
        if Qeq_bool (volume (self w)) 0
        then (Raised ZeroDivisionError,
              World counted (heap w) (next w) (trace w ++ evs))
        else if Qeq_bool (area (self w)) 0
        then (Raised ZeroDivisionError,
              World (set_density (raw / volume (self w)) counted)
                (heap w) (next w) (trace w ++ evs))
        else
          calcSpringConst
            (World (set_mass (raw * 1 * angstrom ^ 2 / area (self w))
                      (set_density (raw / volume (self w)) counted))
               (heap w) (next w) (trace w ++ evs))
    end.
Proof.
  intros Hn. unfold_method_goal addAtom.
  rewrite run_bind, resolve_position_spec.
  destruct (position_entry py_eval position) as [[[pos text] evs]|]; [|reflexivity].
  unfold logged. cbv zeta. destruct w as [e h n t]. destruct e.
  simpl_cell_in Hn. simpl_cell.
  rewrite run_gets, run_setattr, run_gets, run_setattr, run_setattr, run_gets.
  simpl_cell. rewrite run_bind.
  rewrite (mass_loop _ 0 _ (atoms0 ++ [(a, pos, text)])); simpl_cell;
    [|reflexivity|rewrite length_app; cbn [length]; lia].
  rewrite Hn, drop_0, take_ge by (rewrite length_app; cbn [length]; lia).
  rewrite !run_gets. simpl_cell. rewrite run_bind. unfold lift, py_div.
  destruct (Qeq_bool volume0 0); [now rewrite Nat.add_1_r|].
  rewrite run_setattr. simpl_cell. rewrite !run_gets. simpl_cell.
  rewrite run_bind.
  destruct (Qeq_bool area0 0); [now rewrite Nat.add_1_r|].
  rewrite run_setattr. simpl_cell. now rewrite Nat.add_1_r.
Qed.

Lemma Qeq_bool_false (q : Q) : ~ q == 0 -> Qeq_bool q 0 = false.
Proof.
  intros H. destruct (Qeq_bool q 0) eqn:Hb; [|reflexivity].
  apply Qeq_bool_iff in Hb. contradiction.
Qed.


(** What [addAtom] leaves when it returns. *)
Lemma addAtom_returned (py_eval : string -> outcome pyval) (a : atom) (position : pyval)
    (w w' : world) :
  well_formed w ->
  addAtom py_eval a position w = (Returned tt, w') ->
  exists pos text evs,
    position_entry py_eval position = Some (pos, text, evs)
    /\ ~ volume (self w) == 0 /\ ~ area (self w) == 0
    /\ w' = World
        (set_springConst
           (NdArray (nd_dtype (springConst (self w)))
              (<[0%nat := np_cast (nd_dtype (springConst (self w)))
                   (total_mass (atoms (self w) ++ [(a, pos, text)]) 0 * 1 * angstrom ^ 2
                    / area (self w) * (_soundVel (self w) / cAxis (self w)) ^ 2)]>
                 (nd_items (springConst (self w)))))
           (set_mass (total_mass (atoms (self w) ++ [(a, pos, text)]) 0 * 1 * angstrom ^ 2
                      / area (self w))
              (set_density (total_mass (atoms (self w) ++ [(a, pos, text)]) 0
                            / volume (self w))
                 (set_numAtoms (S (numAtoms (self w)))
                    (set_atoms (atoms (self w) ++ [(a, pos, text)]) (self w))))))
        (heap w) (next w) (trace w ++ evs).
Proof.
  intros (Hn & Hc & Hk) H. rewrite (addAtom_outcome _ _ _ _ Hn) in H.
  destruct (position_entry py_eval position) as [[[pos text] evs]|];
    [|apply (f_equal fst) in H; discriminate H].
  cbv zeta in H. exists pos, text, evs. split; [reflexivity|].
  destruct (Qeq_bool (volume (self w)) 0) eqn:Hv;
    [apply (f_equal fst) in H; discriminate H|].
  destruct (Qeq_bool (area (self w)) 0) eqn:Ha;
    [apply (f_equal fst) in H; discriminate H|].
  split; [intros Hz; apply Qeq_bool_iff in Hz; congruence|].
  split; [intros Hz; apply Qeq_bool_iff in Hz; congruence|].
  rewrite calcSpringConst_runs in H.
  - apply (f_equal snd) in H. cbn [snd] in H. subst w'.
    cbn [self heap next trace]. destruct (self w). reflexivity.
  - cbn [self]. destruct (self w). exact Hc.
  - cbn [self]. destruct (self w). exact Hk.
Qed.

Lemma addAtom_keeps_well_formed (py_eval : string -> outcome pyval) (a : atom)
    (position : pyval) (w w' : world) :
  well_formed w ->
  addAtom py_eval a position w = (Returned tt, w') ->
  well_formed w'
  /\ exists pos text evs,
       position_entry py_eval position = Some (pos, text, evs)
       /\ atoms (self w') = atoms (self w) ++ [(a, pos, text)].
Proof.
  intros Hwf H. pose proof Hwf as (Hn & Hc & Hk).
  apply (addAtom_returned _ _ _ _ _ Hwf) in H
    as (pos & text & evs & Hpos & _ & _ & ->).
  unfold well_formed. destruct w as [e h n t]. destruct e.
  simpl_cell_in Hn. simpl_cell_in Hc. simpl_cell_in Hk. simpl_cell. split.
  - split; [rewrite length_app; cbn [length]; lia|]. split; [exact Hc|].
    cbn [nd_items]. rewrite length_insert. exact Hk.
  - eauto.
Qed.

(** X6: [addAtom] with a position that is neither a number nor a text
    raises a [ValueError] (the one that asks for the string of a function
    when the position is a function) and leaves the cell as it was: no atom
    is added. *)
Theorem addAtom_rejects (py_eval : string -> outcome pyval) (a : atom)
    (position : pyval) (w : world) :
  resolvable position = false ->
  addAtom py_eval a position w
  = (Raised (ValueError (if isfunction position then msg_use_string
                         else msg_bad_position)), w).
Proof.
  intros Hp. unfold_method_goal addAtom.
  rewrite run_bind, resolve_position_spec, (position_entry_resolvable _ _ Hp).
  reflexivity.
Qed.

Lemma addAtom_rejects_witness :
  resolvable (VList [VFloat (1 # 2)]) = false
  /\ addAtom example_eval example_atom (VList [VFloat (1 # 2)]) example_cell
     = (Raised (ValueError msg_bad_position), example_cell).
Proof.
  split; [reflexivity|].
  exact (addAtom_rejects example_eval example_atom (VList [VFloat (1 # 2)])
           example_cell eq_refl).
Defined.







Lemma for_each_app {A : Type} (l1 l2 : list A) (body : A -> M unit) (w : world) :
  for_each (l1 ++ l2) body w = (for_each l1 body;; for_each l2 body) w.
Proof.
  revert w. induction l1 as [|x l1 IH]; intros w; cbn [app for_each].
  - reflexivity.
  - rewrite !run_bind. destruct (body x w) as [[[]|e] w1]; [|reflexivity].
    rewrite IH, run_bind. reflexivity.
Qed.

(** A loop whose rounds do not read the index runs the same on every range
    of one length. *)
Lemma for_each_seq_shift (body : M unit) (n : nat) : forall i j w,
  for_each (seq i n) (fun _ => body) w = for_each (seq j n) (fun _ => body) w.
Proof.
  induction n as [|n IH]; intros i j w; cbn [seq for_each]; [reflexivity|].
  rewrite !run_bind. destruct (body w) as [[[]|e] w1]; [|reflexivity].
  apply IH.
Qed.

Lemma addMultipleAtoms_returned (py_eval : string -> outcome pyval) (a : atom)
    (position : pyval) (n : nat) : forall w w',
  well_formed w ->
  addMultipleAtoms py_eval a position n w = (Returned tt, w') ->
  well_formed w'
  /\ numAtoms (self w') = (numAtoms (self w) + n)%nat
  /\ (forall pos text evs,
        position_entry py_eval position = Some (pos, text, evs) ->
        atoms (self w') = atoms (self w) ++ replicate n (a, pos, text)).
Proof.
  unfold addMultipleAtoms. generalize 0%nat as i.
  induction n as [|n IH]; intros i w w' Hwf H; cbn [seq for_each] in H.
  - injection H as <-. split; [exact Hwf|]. split; [lia|].
    intros pos text evs _. cbn. now rewrite app_nil_r.
  - apply bind_returned_inv in H as ([] & w1 & H1 & H).
    destruct (addAtom_keeps_well_formed _ _ _ _ _ Hwf H1)
      as (Hwf1 & pos1 & text1 & evs1 & Hpos1 & Hatoms1).
    destruct (IH _ _ _ Hwf1 H) as (Hwf' & Hnum & Hatoms).
    split; [exact Hwf'|]. split.
    + rewrite Hnum. destruct Hwf as (Hn & _), Hwf1 as (Hn1 & _).
      rewrite Hn1, Hatoms1, length_app, Hn. cbn [length]. lia.
    + intros pos text evs Hpos. rewrite (Hatoms _ _ _ Hpos), Hatoms1.
      rewrite Hpos in Hpos1. injection Hpos1 as <- <- <-.
      rewrite <- app_assoc. reflexivity.
Qed.

(** X10: [addMultipleAtoms] is [addAtom] done [Nb] times. With [Nb = 0]
    it does nothing; with [Nb + Mb] it does what it does with [Nb] and then
    with [Mb], and stops at the first call that raises. When it returns on a
    well-formed cell, the list of atoms has [Nb] more entries, all the same,
    and they are counted. *)
Theorem addMultipleAtoms_composes (py_eval : string -> outcome pyval) (a : atom)
    (position : pyval) (w : world) :
  addMultipleAtoms py_eval a position 0 w = (Returned tt, w)
  /\ (forall Nb Mb,
        addMultipleAtoms py_eval a position (Nb + Mb) w
        = (addMultipleAtoms py_eval a position Nb;;
           addMultipleAtoms py_eval a position Mb) w)
  /\ (forall Nb e w',
        addAtom py_eval a position w = (Raised e, w') ->
        addMultipleAtoms py_eval a position (S Nb) w = (Raised e, w'))
  /\ (forall Nb w',
        well_formed w ->
        addMultipleAtoms py_eval a position Nb w = (Returned tt, w') ->
        numAtoms (self w') = (numAtoms (self w) + Nb)%nat
        /\ exists pos text,
             atoms (self w') = atoms (self w) ++ replicate Nb (a, pos, text)).
Proof.
  split; [reflexivity|]. split; [|split].
  - intros Nb Mb. unfold addMultipleAtoms.
    rewrite seq_app, for_each_app, !run_bind.
    destruct (for_each (seq 0 Nb) _ w) as [[[]|e] w1]; [|reflexivity].
    apply (for_each_seq_shift (addAtom py_eval a position)).
  - intros Nb e w' H. unfold addMultipleAtoms. cbn [seq for_each].
    now rewrite (run_bind_raised _ _ _ _ _ H).
  - intros Nb w' Hwf H.
    destruct (addMultipleAtoms_returned _ _ _ _ _ _ Hwf H) as (_ & Hnum & Hatoms).
    split; [exact Hnum|].
    destruct (position_entry py_eval position) as [[[pos text] evs]|] eqn:Hpos.
    + exists pos, text. now apply Hatoms with evs.
    + destruct Nb as [|Nb].
      * exists (VInt 0), EmptyString. injection H as <-. cbn. now rewrite app_nil_r.
      * exfalso. unfold addMultipleAtoms in H. cbn [seq for_each] in H.
        apply bind_returned_inv in H as ([] & w1 & H1 & _).
        destruct Hwf as (Hn & _). rewrite (addAtom_outcome _ _ _ _ Hn), Hpos in H1.
        apply (f_equal fst) in H1. discriminate H1.
Qed.

Lemma addMultipleAtoms_composes_witness :
  numAtoms (self (snd (addMultipleAtoms example_eval example_atom (VFloat (1 # 2)) 3
                         example_cell))) = 3%nat.
Proof.
  assert (Hwf : well_formed example_cell).
  { split; [vm_compute; reflexivity|]. split; [vm_compute; discriminate|].
    vm_compute. lia. }
  assert (Hrun : exists w',
            addMultipleAtoms example_eval example_atom (VFloat (1 # 2)) 3 example_cell
            = (Returned tt, w')).
  { eexists. vm_compute. reflexivity. }
  destruct Hrun as [w' Hrun]. rewrite Hrun. cbn [snd].
  destruct (addMultipleAtoms_composes example_eval example_atom (VFloat (1 # 2))
              example_cell) as (_ & _ & _ & H).
  destruct (H 3%nat w' Hwf Hrun) as [Hnum _]. exact Hnum.
Defined.

(** ** The invariant of the class *)

Lemma well_formed_same_cell (w w' : world) :
  atoms (self w') = atoms (self w) -> numAtoms (self w') = numAtoms (self w) ->
  cAxis (self w') = cAxis (self w) ->
  length (nd_items (springConst (self w'))) = length (nd_items (springConst (self w))) ->
  well_formed w -> well_formed w'.
Proof.
  intros Ha Hn Hc Hk (H1 & H2 & H3). unfold well_formed.
  rewrite Ha, Hn, Hc, Hk. auto.
Qed.

Lemma well_formed_calcSpringConst : preserves well_formed calcSpringConst.
Proof.
  intros w Hwf. pose proof Hwf as (Hn & Hc & Hk).
  rewrite (calcSpringConst_runs w Hc Hk). cbn [snd].
  apply (well_formed_same_cell w); try exact Hwf;
    cbn [self]; destruct (self w); simpl_cell; try reflexivity.
  cbn [nd_items]. apply length_insert.
Qed.

Lemma well_formed_soundVel_set (v : Q) : preserves well_formed (soundVel_set v).
Proof.
  intros w Hwf. pose proof Hwf as (Hn & Hc & Hk).
  rewrite (soundVel_set_runs v w Hc Hk). cbn [snd].
  apply (well_formed_same_cell w); try exact Hwf;
    cbn [self]; destruct (self w); simpl_cell; try reflexivity.
  cbn [nd_items]. apply length_insert.
Qed.

Lemma well_formed_addAtom (py_eval : string -> outcome pyval) (a : atom)
    (position : pyval) :
  preserves well_formed (addAtom py_eval a position).
Proof.
  intros w Hwf. pose proof Hwf as (Hn & Hc & Hk).
  rewrite (addAtom_outcome py_eval a position w Hn).
  destruct (position_entry py_eval position) as [[[pos text] evs]|]; [|exact Hwf].
  cbv zeta.
  assert (Hcounted : forall m d t,
            well_formed
              (World (set_density d
                        (set_mass m (set_numAtoms (S (numAtoms (self w)))
                                       (set_atoms (atoms (self w) ++ [(a, pos, text)])
                                          (self w)))))
                 (heap w) (next w) t)).
  { intros m d t. unfold well_formed. destruct w as [e h n t0]. destruct e.
    simpl_cell_in Hn. simpl_cell_in Hc. simpl_cell_in Hk. simpl_cell.
    split; [rewrite length_app; cbn [length]; lia|]. split; assumption. }
  destruct (Qeq_bool (volume (self w)) 0).
  { cbn [snd].
    apply (well_formed_same_cell _ _) with (5 := Hcounted 0 0 (trace w));
      cbn [self]; destruct (self w); reflexivity. }
  destruct (Qeq_bool (area (self w)) 0).
  { cbn [snd]. apply (well_formed_same_cell _ _) with (5 := Hcounted 0 0 (trace w));
      cbn [self]; destruct (self w); reflexivity. }
  apply well_formed_calcSpringConst.
  apply (well_formed_same_cell _ _) with (5 := Hcounted 0 0 (trace w));
    cbn [self]; destruct (self w); reflexivity.
Qed.

Lemma setHOspringConstants_runs (HO : list pynum) (w : world) :
  setHOspringConstants HO w
  = (Returned tt,
     World (set_springConst
              (np_hstack (np_delete_from_1 (springConst (self w))) (np_asarray HO))
              (self w))
       (heap w) (next w) (trace w)).
Proof.
  unfold setHOspringConstants.
  rewrite run_gets, run_setattr, run_gets. unfold setattr.
  cbn [self heap next trace]. destruct (self w). reflexivity.
Qed.

Lemma well_formed_setHOspringConstants (HO : list pynum) :
  preserves well_formed (setHOspringConstants HO).
Proof.
  intros w (Hn & Hc & Hk). rewrite setHOspringConstants_runs. cbn [snd].
  unfold well_formed. destruct w as [e h n t]. destruct e.
  simpl_cell_in Hn. simpl_cell_in Hc. simpl_cell_in Hk. simpl_cell.
  split; [exact Hn|]. split; [exact Hc|].
  cbn [np_hstack np_delete_from_1 nd_items]. rewrite length_app.
  destruct (nd_items springConst0); cbn in *; lia.
Qed.

Lemma checkCellArrayInput_same_cell (py_eval : string -> outcome pyval) (v : pyval)
    (w : world) :
  self (snd (checkCellArrayInput py_eval v w)) = self w
  /\ heap (snd (checkCellArrayInput py_eval v w)) = heap w
  /\ next (snd (checkCellArrayInput py_eval v w)) = next w.
Proof.
  unfold checkCellArrayInput. fold (as_list v).
  generalize (as_list v) (@nil pyval) (@nil string). intros l. revert w.
  induction l as [|x l IH]; intros w o os; cbn [resolve_entries].
  - auto.
  - rewrite run_bind.
    destruct (resolve_entry_cases py_eval x o os w)
      as [(add & _ & ->)|(_ & msg & ->)]; [|auto].
    destruct (IH (logged (entry_report py_eval x) w) (o ++ add.*1) (os ++ add.*2))
      as (H1 & H2 & H3).
    rewrite H1, H2, H3. auto.
Qed.

Lemma well_formed_checkCellArrayInput (py_eval : string -> outcome pyval) (v : pyval) :
  preserves well_formed (checkCellArrayInput py_eval v).
Proof.
  intros w Hwf. destruct (checkCellArrayInput_same_cell py_eval v w) as (Hs & _ & _).
  unfold well_formed. rewrite Hs. exact Hwf.
Qed.

Lemma well_formed_alloc (v : pyval) : preserves well_formed (alloc v).
Proof. intros w Hw. exact Hw. Qed.

Lemma well_formed_emit (ev : event) : preserves well_formed (emit ev).
Proof. intros w Hw. exact Hw. Qed.

Lemma well_formed_print (line : string) : preserves well_formed (print line).
Proof. intros w Hw. exact Hw. Qed.

Lemma well_formed_list_append (l : positive) (x : pyval) :
  preserves well_formed (list_append l x).
Proof. intros w Hw. exact Hw. Qed.

Lemma well_formed_holds_list (f : unitCell -> option positive) :
  preserves well_formed (holds_list f).
Proof. intros w Hw. exact Hw. Qed.

Lemma well_formed_set_intHeatCapacity (v : option positive) :
  preserves well_formed (setattr set_intHeatCapacity v).
Proof. intros w Hw. exact Hw. Qed.

Lemma well_formed_set_intHeatCapacityStr (v : option positive) :
  preserves well_formed (setattr set_intHeatCapacityStr v).
Proof. intros w Hw. exact Hw. Qed.

Lemma well_formed_set_intLinThermExp (v : option positive) :
  preserves well_formed (setattr set_intLinThermExp v).
Proof. intros w Hw. exact Hw. Qed.

Lemma well_formed_set_intLinThermExpStr (v : option positive) :
  preserves well_formed (setattr set_intLinThermExpStr v).
Proof. intros w Hw. exact Hw. Qed.

Lemma well_formed_sympy_integrate (integrate : string -> outcome (pyval * string))
    (text : string) :
  preserves well_formed (sympy_integrate integrate text).
Proof.
  apply preserves_bind; [apply well_formed_emit|intros _; apply preserves_lift].
Qed.

(** A method that only hands values on keeps a property when each of its
    steps does. *)
Ltac frame_step :=
  lazymatch goal with
  | |- preserves _ (mbind _ _) => apply preserves_bind; [|intros ?]
  | |- preserves _ (try_except _ _) => apply preserves_try_except; [|intros ?]
  | |- preserves _ (for_each _ _) => apply preserves_for_each; intros ?
  | |- preserves _ (let '(_, _) := ?p in _) => destruct p
  | |- preserves _ (match ?b with true => _ | false => _ end) => destruct b
  | |- preserves _ (mret _) => apply preserves_mret
  | |- preserves _ (raise _) => apply preserves_raise
  | |- preserves _ (lift _) => apply preserves_lift
  | |- preserves _ (gets _) => apply preserves_gets
  | |- preserves _ (getref _) => apply preserves_getref
  | |- preserves _ (alloc _) => apply well_formed_alloc
  | |- preserves _ (emit _) => apply well_formed_emit
  | |- preserves _ (print _) => apply well_formed_print
  | |- preserves _ (list_append _ _) => apply well_formed_list_append
  | |- preserves _ (sympy_integrate _ _) => apply well_formed_sympy_integrate
  | |- preserves _ (holds_list _) => apply well_formed_holds_list
  | |- preserves _ (checkCellArrayInput _ _) => apply well_formed_checkCellArrayInput
  | |- preserves _ (setattr set_intHeatCapacity _) =>
      apply well_formed_set_intHeatCapacity
  | |- preserves _ (setattr set_intHeatCapacityStr _) =>
      apply well_formed_set_intHeatCapacityStr
  | |- preserves _ (setattr set_intLinThermExp _) =>
      apply well_formed_set_intLinThermExp
  | |- preserves _ (setattr set_intLinThermExpStr _) =>
      apply well_formed_set_intLinThermExpStr
  end.

Ltac frame := repeat frame_step.

(** X11: a cell that was constructed counts its atoms right, has a [cAxis]
    that is not zero and a first spring constant, and every method that
    changes the cell keeps this, also when it raises: [addAtom] (which can
    raise after it has appended the atom), [addMultipleAtoms], the setter of
    [soundVel], [setHOspringConstants], and the getters and setters of the
    integrated properties. *)
Theorem well_formed_invariant (py_eval : string -> outcome pyval)
    (integrate : string -> outcome (pyval * string)) :
  (forall ID_ name_ c kw w',
     unitCell_new py_eval ID_ name_ c kw = (Returned tt, w') -> well_formed w')
  /\ (forall a position, preserves well_formed (addAtom py_eval a position))
  /\ (forall a position Nb,
        preserves well_formed (addMultipleAtoms py_eval a position Nb))
  /\ (forall v, preserves well_formed (soundVel_set v))
  /\ (forall HO, preserves well_formed (setHOspringConstants HO))
  /\ (forall v, preserves well_formed (intHeatCapacity_set py_eval v))
  /\ (forall v, preserves well_formed (intLinThermExp_set py_eval v))
  /\ preserves well_formed (intHeatCapacity_get integrate)
  /\ preserves well_formed (intLinThermExp_get integrate).
Proof.
  repeat match goal with |- _ /\ _ => split end.
  - intros ID_ name_ c kw w' H. unfold_method unitCell_new H.
    apply init_returned in H as (w1 & n & Hp & _ & _ & _ & _ & ->).
    pose proof Hp as Hp'.
    apply init_properties_returned in Hp'
      as (a1 & a2 & a3 & a4 & H1 & H2 & H3 & H4 & _ & _ & _ & _ & _ & _ & _ & _ & Hc & _).
    pose proof (init_properties_runs py_eval ID_ name_ c kw new_world _ _ _ _
                  Hc H1 H2 H3 H4) as Hq.
    assert (Hw : snd (init_properties py_eval ID_ name_ c kw new_world) = w1)
      by (rewrite Hp; reflexivity).
    rewrite Hq in Hw. cbn [snd] in Hw. subst w1.
    unfold well_formed. simpl_cell. split; [reflexivity|]. split; [exact Hc|].
    cbn [nd_items length]. lia.
  - intros a position. apply well_formed_addAtom.
  - intros a position Nb. unfold addMultipleAtoms. apply preserves_for_each.
    intros _. apply well_formed_addAtom.
  - apply well_formed_soundVel_set.
  - apply well_formed_setHOspringConstants.
  - intros v. unfold_method_goal intHeatCapacity_set. frame.
  - intros v. unfold_method_goal intLinThermExp_set. frame.
  - unfold_method_goal intHeatCapacity_get. frame.
  - unfold_method_goal intLinThermExp_get. frame.
Qed.

(** ** The sound velocity and the spring constants *)



(** X13: [setHOspringConstants] never raises. It keeps the first spring
    constant, drops the higher orders there were and puts the entries of
    [HO] in their place; no other attribute changes. The array is an array
    of integers afterwards only if it was one before and [HO] is a list of
    ints that is not empty; with an empty [HO], or one that holds a float,
    it is an array of floats. On a cell that has a first spring constant
    a second call replaces what the first stored. *)
Theorem setHOspringConstants_result (HO : list pynum) (w : world) :
  exists w',
    setHOspringConstants HO w = (Returned tt, w')
    /\ nd_items (springConst (self w'))
       = take 1 (nd_items (springConst (self w))) ++ (pynum_value <$> HO)
    /\ w' = World (set_springConst (springConst (self w')) (self w))
              (heap w) (next w) (trace w)
    /\ (nd_dtype (springConst (self w')) = int64 ->
        nd_dtype (springConst (self w)) = int64
        /\ HO <> [] /\ Forall (fun x => pynum_is_int x = true) HO)
    /\ (HO = [] \/ Exists (fun x => pynum_is_int x = false) HO ->
        nd_dtype (springConst (self w')) = float64)
    /\ ((0 < length (nd_items (springConst (self w))))%nat ->
        forall HO',
          nd_items (springConst (self (snd (setHOspringConstants HO' w'))))
          = nd_items (springConst (self (snd (setHOspringConstants HO' w))))).
Proof.
  eexists. split; [apply setHOspringConstants_runs|].
  assert (Hint : forallb pynum_is_int HO && negb (length HO =? 0)%nat = true ->
            HO <> [] /\ Forall (fun x => pynum_is_int x = true) HO).
  { intros Hb. apply andb_prop in Hb as [Hall Hne]. split.
    - intros ->. discriminate Hne.
    - apply Forall_forall. intros x Hx. apply list_elem_of_In in Hx.
      exact (proj1 (forallb_forall _ _) Hall x Hx). }
  destruct w as [e h n t]. destruct e. simpl_cell.
  cbn [np_hstack np_delete_from_1 np_asarray nd_dtype nd_items].
  split; [reflexivity|]. split; [reflexivity|]. split; [|split].
  - destruct (nd_dtype springConst0); [|discriminate].
    destruct (forallb pynum_is_int HO && negb (length HO =? 0)%nat);
      [|discriminate].
    intros _. split; [reflexivity|]. now apply Hint.
  - intros Hfloat.
    destruct (forallb pynum_is_int HO && negb (length HO =? 0)%nat) eqn:Hb;
      [|now destruct (nd_dtype springConst0)].
    exfalso. destruct (Hint eq_refl) as [Hne Hall].
    destruct Hfloat as [->|Hex]; [now apply Hne|].
    apply Exists_exists in Hex as (x & Hx & Hxf).
    rewrite Forall_forall in Hall. rewrite (Hall x Hx) in Hxf. discriminate.
  - intros Hk HO'. rewrite !setHOspringConstants_runs. cbn [snd]. simpl_cell.
    cbn [np_hstack np_delete_from_1 nd_items].
    destruct (nd_items springConst0); [cbn in Hk; lia|reflexivity].
Qed.


(** ** The getters of the integrated properties *)

Lemma integrate_loop_runs (integrate : string -> outcome (pyval * string))
    (f1 f2 : unitCell -> option positive) (l l' : positive) (strs : list string) :
  forall (e : unitCell) (h0 : gmap positive pyval) (n : positive) (t : list event)
         (fs ss : list pyval),
  f1 e = Some l -> f2 e = Some l' -> l <> l' ->
  for_each strs (fun hcs =>
    text ← lift (split_colon_1 hcs);
    '(f, s) ← sympy_integrate integrate text;
    r ← getref f1;
    list_append r f;;
    r' ← getref f2;
    list_append r' (VStr ("lambda T : " +:+ s)))
    (World e (<[l' := VList ss]> (<[l := VList fs]> h0)) n t)
  = (match (integrated integrate strs).2 with
     | Some ex => Raised ex
     | None => Returned tt
     end,
     World e
       (<[l' := VList (ss ++ (VStr <$> (integrated integrate strs).1.1.*2))]>
          (<[l := VList (fs ++ (integrated integrate strs).1.1.*1)]> h0))
       n (t ++ (integrated integrate strs).1.2)).
Proof.
  intros. revert t fs ss.
  induction strs as [|hcs rest IH]; intros t fs ss; cbn [for_each integrated].
  - cbn. now rewrite !app_nil_r.
  - rewrite run_bind. unfold integrated_entry.
    rewrite run_bind. unfold lift at 1.
    destruct (split_colon_1 hcs) as [text|ex]; [|cbn; now rewrite !app_nil_r].
    rewrite run_bind. unfold sympy_integrate at 1. rewrite run_bind.
    unfold emit at 1. cbn [self heap next trace]. unfold lift at 1.
    destruct (integrate text) as [[f s]|ex]; [|cbn; now rewrite !app_nil_r].
    rewrite run_bind. unfold getref at 1. rewrite run_gets.
    cbn [self heap next trace]. rewrite H. unfold mret at 1, M_ret at 1.
    rewrite run_bind. unfold list_append at 1. cbn [self heap next trace].
    rewrite run_bind. unfold getref at 1. rewrite run_gets.
    cbn [self heap next trace]. rewrite H0. unfold mret at 1, M_ret at 1.
    unfold list_append at 1. cbn [self heap next trace].
    rewrite alter_insert_ne by exact H1. rewrite alter_insert_eq.
    rewrite alter_insert_eq.
    rewrite IH.
    destruct (integrated integrate rest) as [[res evs] err]. cbn [fst snd].
    rewrite !fmap_cons. cbn [fst snd].
    rewrite <- !app_assoc. reflexivity.
Qed.

Lemma integrated_prefix (integrate : string -> outcome (pyval * string))
    (strs : list string) :
  Forall2 (integral_of integrate)
    (take (length (integrated integrate strs).1.1) strs)
    (integrated integrate strs).1.1
  /\ ((integrated integrate strs).2 = None
      <-> length (integrated integrate strs).1.1 = length strs)
  /\ Forall (fun ev => exists text, ev = Integrated text)
       (integrated integrate strs).1.2.
Proof.
  induction strs as [|hcs rest (IH1 & IH2 & IH3)]; cbn [integrated].
  - cbn. split; [constructor|]. split; [tauto|constructor].
  - unfold integrated_entry.
    destruct (split_colon_1 hcs) as [text|ex] eqn:Ht;
      [|cbn; split; [constructor|split; [split; [discriminate|lia]|constructor]]].
    destruct (integrate text) as [[f s]|ex] eqn:Hi;
      [|cbn; split; [constructor|split; [split; [discriminate|lia]|]];
        constructor; [eauto|constructor]].
    destruct (integrated integrate rest) as [[res evs] err]. cbn [fst snd] in *.
    cbn [length take app]. split; [|split].
    + constructor; [|exact IH1]. exists text, f, s. auto.
    + rewrite IH2. lia.
    + constructor; [eauto|exact IH3].
Qed.

Lemma no_list_held (f : unitCell -> option positive) (w : world) :
  (forall l, ~ (f (self w) = Some l /\ exists items, heap w !! l = Some (VList items))) ->
  holds_list f w = (Returned false, w).
Proof.
  intros Hno. unfold holds_list.
  destruct (f (self w)) as [l|] eqn:Hl; [|reflexivity].
  destruct (heap w !! l) as [[| | |items| | |]|] eqn:Hitems; try reflexivity.
  exfalso. apply (Hno l). split; [reflexivity|]. now exists items.
Qed.

Lemma intHeatCapacity_get_runs (integrate : string -> outcome (pyval * string))
    (w : world) :
  (forall l, ~ heat_cached l w) ->
  intHeatCapacity_get integrate w
  = (Returned (next w),
     World
       (set_intHeatCapacityStr (Some (Pos.succ (next w)))
          (set_intHeatCapacity (Some (next w)) (self w)))
       (<[Pos.succ (next w) :=
            VList (VStr <$> (integrated integrate (heatCapacityStr (self w))).1.1.*2)]>
          (<[next w := VList (integrated integrate (heatCapacityStr (self w))).1.1.*1]>
             (heap w)))
       (Pos.succ (Pos.succ (next w)))
       (trace w ++ (integrated integrate (heatCapacityStr (self w))).1.2
        ++ integration_report EmptyString
             (integrated integrate (heatCapacityStr (self w))).2)).
Proof.
  intros Hno. unfold_method_goal intHeatCapacity_get.
  rewrite run_bind, (no_list_held _intHeatCapacity w Hno). clear Hno.
  destruct w as [e h n t]. destruct e. simpl_cell.
  rewrite run_bind. rewrite run_bind. unfold alloc at 1.
  rewrite run_setattr. simpl_cell.
  rewrite run_bind. unfold alloc at 1. simpl_cell.
  rewrite run_bind. unfold setattr at 1. simpl_cell.
  unfold try_except. rewrite run_gets. simpl_cell.
  rewrite (integrate_loop_runs integrate _intHeatCapacity intHeatCapacityStr
             n (Pos.succ n)); [|reflexivity|reflexivity|lia].
  destruct (integrated integrate heatCapacityStr0) as [[res evs] err].
  cbn [fst snd app].
  destruct err as [ex|]; cbn [integration_report].
  - unfold print, emit. rewrite !run_bind. simpl_cell. cbn [mret M_ret].
    unfold getref. rewrite run_gets. simpl_cell. cbn [mret M_ret].
    now rewrite <- !app_assoc.
  - unfold getref. rewrite run_gets. simpl_cell. cbn [mret M_ret].
    now rewrite app_nil_r.
Qed.

Lemma intLinThermExp_get_runs (integrate : string -> outcome (pyval * string))
    (w : world) :
  (forall l, ~ expansion_cached l w) ->
  intLinThermExp_get integrate w
  = (Returned (next w),
     World
       (set_intLinThermExpStr (Some (Pos.succ (next w)))
          (set_intLinThermExp (Some (next w)) (self w)))
       (<[Pos.succ (next w) :=
            VList (VStr <$> (integrated integrate (linThermExpStr (self w))).1.1.*2)]>
          (<[next w := VList (integrated integrate (linThermExpStr (self w))).1.1.*1]>
             (heap w)))
       (Pos.succ (Pos.succ (next w)))
       (trace w ++ (integrated integrate (linThermExpStr (self w))).1.2
        ++ integration_report "the "
             (integrated integrate (linThermExpStr (self w))).2)).
Proof.
  intros Hno. unfold_method_goal intLinThermExp_get.
  rewrite run_bind, (no_list_held _intLinThermExp w Hno). clear Hno.
  destruct w as [e h n t]. destruct e. simpl_cell.
  rewrite run_bind. rewrite run_bind. unfold alloc at 1.
  rewrite run_setattr. simpl_cell.
  rewrite run_bind. unfold alloc at 1. simpl_cell.
  rewrite run_bind. unfold setattr at 1. simpl_cell.
  unfold try_except. rewrite run_gets. simpl_cell.
  rewrite (integrate_loop_runs integrate _intLinThermExp intLinThermExpStr
             n (Pos.succ n)); [|reflexivity|reflexivity|lia].
  destruct (integrated integrate linThermExpStr0) as [[res evs] err].
  cbn [fst snd app].
  destruct err as [ex|]; cbn [integration_report].
  - unfold print, emit. rewrite !run_bind. simpl_cell. cbn [mret M_ret].
    unfold getref. rewrite run_gets. simpl_cell. cbn [mret M_ret].
    now rewrite <- !app_assoc.
  - unfold getref. rewrite run_gets. simpl_cell. cbn [mret M_ret].
    now rewrite app_nil_r.
Qed.

Lemma expansion_cached_get (integrate : string -> outcome (pyval * string))
    (l : positive) (w : world) :
  expansion_cached l w -> intLinThermExp_get integrate w = (Returned l, w).
Proof.
  intros [Hl [items Hitems]]. unfold intLinThermExp_get.
  rewrite run_bind. unfold holds_list at 1. rewrite Hl, Hitems.
  rewrite run_bind. cbn [mret M_ret]. unfold getref, gets. rewrite run_bind.
  rewrite Hl. reflexivity.
Qed.

(** X15: the first read of [intHeatCapacity], on a cell that holds no list
    for it. The getter never raises. It makes two new list objects, one for
    the integrals and one for their texts, and returns the first. It
    integrates the text after the colon of each string of
    [heatCapacityStr], in order, up to the first round that raises: what the
    lists hold are the integrals of the strings before that round, each
    with the text ['lambda T : '] and the integral. When a round raised, the
    message and the exception are printed and the lists keep what was
    stored; when none did, there is one integral for each string and nothing
    is printed. A second read returns the same list and changes
    nothing. *)
Theorem intHeatCapacity_get_integrates (integrate : string -> outcome (pyval * string))
    (w : world) :
  (forall l, ~ heat_cached l w) ->
  exists res evs err w1,
    integrated integrate (heatCapacityStr (self w)) = (res, evs, err)
    /\ intHeatCapacity_get integrate w = (Returned (next w), w1)
    /\ _intHeatCapacity (self w1) = Some (next w)
    /\ intHeatCapacityStr (self w1) = Some (Pos.succ (next w))
    /\ heap w1 !! next w = Some (VList res.*1)
    /\ heap w1 !! Pos.succ (next w) = Some (VList (VStr <$> res.*2))
    /\ trace w1 = trace w ++ evs ++ integration_report EmptyString err
    /\ Forall (fun ev => exists text, ev = Integrated text) evs
    /\ Forall2 (integral_of integrate)
         (take (length res) (heatCapacityStr (self w))) res
    /\ (err = None <-> length res = length (heatCapacityStr (self w)))
    /\ intHeatCapacity_get integrate w1 = (Returned (next w), w1).
Proof.
  intros Hno. pose proof (intHeatCapacity_get_runs integrate w Hno) as Hrun.
  pose proof (integrated_prefix integrate (heatCapacityStr (self w)))
    as (Hpre & Hall & Hevs).
  destruct (integrated integrate (heatCapacityStr (self w))) as [[res evs] err].
  cbn [fst snd] in *.
  eexists res, evs, err, _. split; [reflexivity|]. split; [exact Hrun|].
  cbn [self heap next trace].
  split; [destruct (self w); reflexivity|].
  split; [destruct (self w); reflexivity|].
  split; [rewrite lookup_insert_ne by lia; apply lookup_insert_eq|].
  split; [apply lookup_insert_eq|].
  split; [reflexivity|]. split; [exact Hevs|]. split; [exact Hpre|].
  split; [exact Hall|].
  apply heat_cached_get. split; [cbn [self]; destruct (self w); reflexivity|].
  cbn [heap]. eexists. rewrite lookup_insert_ne by lia. apply lookup_insert_eq.
Qed.

Lemma intHeatCapacity_get_integrates_witness :
  exists w1,
    intHeatCapacity_get example_integrate example_cell = (Returned 1%positive, w1)
    /\ heap w1 !! 1%positive = Some (VList [lambda_const 0]).
Proof.
  assert (Hno : forall l, ~ heat_cached l example_cell).
  { intros l [Hl _]. vm_compute in Hl. discriminate Hl. }
  destruct (intHeatCapacity_get_integrates example_integrate example_cell Hno)
    as (res & evs & err & w1 & Hres & Hrun & _ & _ & Hheap & _).
  exists w1. split; [exact Hrun|].
  assert (Hr : res = [(lambda_const 0, "lambda T : 0")]).
  { vm_compute in Hres. injection Hres as Hr _ _. rewrite <- Hr. reflexivity. }
  rewrite Hr in Hheap. exact Hheap.
Defined.

(** X16: the property [intLinThermExp] is read as [intHeatCapacity] is.
    When the cell holds a list for it, the getter returns that list and
    changes nothing. When it holds none, the getter never raises: it
    integrates the strings of [linThermExpStr] in order up to the first
    round that raises, stores the integrals and their texts in two new
    lists and returns the first; a round that raised is reported with the
    message and the exception. A second read returns the same list and
    changes nothing. *)
Theorem intLinThermExp_get_integrates (integrate : string -> outcome (pyval * string))
    (w : world) :
  (forall l, expansion_cached l w ->
     intLinThermExp_get integrate w = (Returned l, w))
  /\ ((forall l, ~ expansion_cached l w) ->
      exists res evs err w1,
        integrated integrate (linThermExpStr (self w)) = (res, evs, err)
        /\ intLinThermExp_get integrate w = (Returned (next w), w1)
        /\ _intLinThermExp (self w1) = Some (next w)
        /\ intLinThermExpStr (self w1) = Some (Pos.succ (next w))
        /\ heap w1 !! next w = Some (VList res.*1)
        /\ heap w1 !! Pos.succ (next w) = Some (VList (VStr <$> res.*2))
        /\ trace w1 = trace w ++ evs ++ integration_report "the " err
        /\ Forall (fun ev => exists text, ev = Integrated text) evs
        /\ Forall2 (integral_of integrate)
             (take (length res) (linThermExpStr (self w))) res
        /\ (err = None <-> length res = length (linThermExpStr (self w)))
        /\ intLinThermExp_get integrate w1 = (Returned (next w), w1)).
Proof.
  split; [intros l Hl; now apply expansion_cached_get|].
  intros Hno. pose proof (intLinThermExp_get_runs integrate w Hno) as Hrun.
  pose proof (integrated_prefix integrate (linThermExpStr (self w)))
    as (Hpre & Hall & Hevs).
  destruct (integrated integrate (linThermExpStr (self w))) as [[res evs] err].
  cbn [fst snd] in *.
  eexists res, evs, err, _. split; [reflexivity|]. split; [exact Hrun|].
  cbn [self heap next trace].
  split; [destruct (self w); reflexivity|].
  split; [destruct (self w); reflexivity|].
  split; [rewrite lookup_insert_ne by lia; apply lookup_insert_eq|].
  split; [apply lookup_insert_eq|].
  split; [reflexivity|]. split; [exact Hevs|]. split; [exact Hpre|].
  split; [exact Hall|].
  apply expansion_cached_get. split; [cbn [self]; destruct (self w); reflexivity|].
  cbn [heap]. eexists. rewrite lookup_insert_ne by lia. apply lookup_insert_eq.
Qed.

Lemma intLinThermExp_get_integrates_witness :
  exists w1,
    intLinThermExp_get example_integrate example_cell = (Returned 1%positive, w1)
    /\ heap w1 !! 1%positive = Some (VList [lambda_const 0]).
Proof.
  assert (Hno : forall l, ~ expansion_cached l example_cell).
  { intros l [Hl _]. vm_compute in Hl. discriminate Hl. }
  destruct (intLinThermExp_get_integrates example_integrate example_cell) as [_ H].
  destruct (H Hno) as (res & evs & err & w1 & Hres & Hrun & _ & _ & Hheap & _).
  exists w1. split; [exact Hrun|].
  assert (Hr : res = [(lambda_const 0, "lambda T : 0")]).
  { vm_compute in Hres. injection Hres as Hr _ _. rewrite <- Hr. reflexivity. }
  rewrite Hr in Hheap. exact Hheap.
Defined.

Lemma intHeatCapacity_set_raised (py_eval : string -> outcome pyval) (v : pyval)
    (e : exn) (w w' : world) :
  intHeatCapacity_set py_eval v w = (Raised e, w') ->
  self w' = self w /\ heap w' = heap w /\ next w' = next w.
Proof.
  intros H. unfold_method intHeatCapacity_set H. rewrite run_bind in H.
  pose proof (checkCellArrayInput_same_cell py_eval v w) as Hsame.
  destruct (checkCellArrayInput py_eval v w) as [[[f s]|e0] w1].
  - exfalso. unfold alloc, setattr in H. rewrite !run_bind in H.
    apply (f_equal fst) in H. discriminate H.
  - apply (f_equal snd) in H. cbn [snd] in *. subst w'. exact Hsame.
Qed.

Lemma intLinThermExp_set_raised (py_eval : string -> outcome pyval) (v : pyval)
    (e : exn) (w w' : world) :
  intLinThermExp_set py_eval v w = (Raised e, w') ->
  self w' = self w /\ heap w' = heap w /\ next w' = next w.
Proof.
  intros H. unfold_method intLinThermExp_set H. rewrite run_bind in H.
  pose proof (checkCellArrayInput_same_cell py_eval v w) as Hsame.
  destruct (checkCellArrayInput py_eval v w) as [[[f s]|e0] w1].
  - exfalso. unfold alloc, setattr in H. rewrite !run_bind in H.
    apply (f_equal fst) in H. discriminate H.
  - apply (f_equal snd) in H. cbn [snd] in *. subst w'. exact Hsame.
Qed.

(** X17: an integrated property that was set is not integrated. After
    the setter of [intHeatCapacity] returned, the getter returns the list
    that the setter stored, which holds the functions the resolver made of
    the value, and changes nothing: no integration is run and nothing is
    printed. A setter that raises leaves the cell and its lists as they
    were. The same holds of [intLinThermExp]. *)
Theorem integrated_set_then_get (py_eval : string -> outcome pyval)
    (integrate : string -> outcome (pyval * string)) (v : pyval) (w : world) :
  (forall w', intHeatCapacity_set py_eval v w = (Returned tt, w') ->
     exists adds,
       entries_result py_eval (as_list v) = Some adds
       /\ intHeatCapacity_get integrate w' = (Returned (next w), w')
       /\ heap w' !! next w = Some (VList adds.*1))
  /\ (forall e w', intHeatCapacity_set py_eval v w = (Raised e, w') ->
        self w' = self w /\ heap w' = heap w /\ next w' = next w)
  /\ (forall w', intLinThermExp_set py_eval v w = (Returned tt, w') ->
        exists adds,
          entries_result py_eval (as_list v) = Some adds
          /\ intLinThermExp_get integrate w' = (Returned (next w), w')
          /\ heap w' !! next w = Some (VList adds.*1))
  /\ (forall e w', intLinThermExp_set py_eval v w = (Raised e, w') ->
        self w' = self w /\ heap w' = heap w /\ next w' = next w).
Proof.
  split; [|split; [|split]].
  - intros w' H.
    apply intHeatCapacity_set_returned in H as (adds & Hadds & Hl & _ & Hheap & _).
    exists adds. split; [exact Hadds|]. split; [|exact Hheap].
    apply heat_cached_get. split; [exact Hl|eauto].
  - intros e w'. apply intHeatCapacity_set_raised.
  - intros w' H.
    apply intLinThermExp_set_returned in H as (adds & Hadds & Hl & _ & Hheap & _).
    exists adds. split; [exact Hadds|]. split; [|exact Hheap].
    apply expansion_cached_get. split; [exact Hl|eauto].
  - intros e w'. apply intLinThermExp_set_raised.
Qed.

Lemma integrated_set_then_get_witness :
  exists w',
    intHeatCapacity_set example_eval (VStr "lambda T: 2*T") example_cell
    = (Returned tt, w')
    /\ intHeatCapacity_get example_integrate w' = (Returned 1%positive, w').
Proof.
  assert (Hrun : exists w',
            intHeatCapacity_set example_eval (VStr "lambda T: 2*T") example_cell
            = (Returned tt, w')).
  { eexists. vm_compute. reflexivity. }
  destruct Hrun as [w' Hrun]. exists w'. split; [exact Hrun|].
  destruct (integrated_set_then_get example_eval example_integrate
              (VStr "lambda T: 2*T") example_cell) as (H & _).
  destruct (H w' Hrun) as (adds & _ & Hget & _). exact Hget.
Defined.

(** ** The projections on the types of simulation *)

Lemma vars_lazy (e : unitCell) :
  vars e !! "_intHeatCapacity" = ARef <$> _intHeatCapacity e
  /\ vars e !! "intHeatCapacityStr" = ARef <$> intHeatCapacityStr e
  /\ vars e !! "_intLinThermExp" = ARef <$> _intLinThermExp e
  /\ vars e !! "intLinThermExpStr" = ARef <$> intLinThermExpStr e
  /\ vars e !! "soundVel" = None
  /\ vars e !! "_soundVel" = Some (ANum (_soundVel e)).
Proof.
  unfold vars. rewrite list_to_map_app.
  repeat match goal with |- _ /\ _ => split end;
    try (rewrite lookup_union_r by (vm_compute; reflexivity);
         destruct (_intHeatCapacity e), (intHeatCapacityStr e),
           (_intLinThermExp e), (intLinThermExpStr e); vm_compute; reflexivity).
  apply lookup_union_Some_l. vm_compute. reflexivity.
Qed.

Lemma propertiesByTypes_keys (s : string) (keys : list string) :
  propertiesByTypes !! s = Some keys ->
  s ∈ ["heat"; "phonon"; "XRD"; "optical"].
Proof.
  intros H. unfold propertiesByTypes in H.
  apply elem_of_list_to_map_2 in H.
  repeat (apply elem_of_cons in H as [H|H];
          [injection H as -> _; set_solver|]).
  now apply elem_of_nil in H.
Qed.

(** X18: [getPropertyStruct] reads and changes nothing. With
    [types='all'] it returns every attribute of the object; the sound
    velocity is there under the name [_soundVel], and there is no
    [soundVel]. With one of the four types of simulation it returns the
    attributes of that type that the object has, with their values. With
    any other [types], and with none, it raises [KeyError]. *)
Theorem getPropertyStruct_types (types : option string) (w : world) :
  snd (getPropertyStruct types w) = w
  /\ (types = Some "all" ->
      getPropertyStruct types w = (Returned (vars (self w)), w)
      /\ vars (self w) !! "_soundVel" = Some (ANum (_soundVel (self w)))
      /\ vars (self w) !! "soundVel" = None)
  /\ (forall s keys,
        types = Some s -> s <> "all" -> propertiesByTypes !! s = Some keys ->
        exists S,
          getPropertyStruct types w = (Returned S, w)
          /\ forall k v, S !! k = Some v <-> k ∈ keys /\ vars (self w) !! k = Some v)
  /\ (types ∉ [Some "all"; Some "heat"; Some "phonon"; Some "XRD"; Some "optical"] ->
      getPropertyStruct types w = (Raised (KeyError types), w)).
Proof.
  unfold getPropertyStruct. rewrite run_gets.
  split; [|split; [|split]].
  - destruct (decide (types = Some "all")); [reflexivity|].
    destruct (types ≫= _); reflexivity.
  - intros ->. destruct (decide (Some "all" = Some "all")) as [_|Hne];
      [|contradiction].
    destruct (vars_lazy (self w)) as (_ & _ & _ & _ & Hs & Hv). auto.
  - intros s keys -> Hs Hkeys.
    destruct (decide (Some s = Some "all")) as [Heq|_]; [congruence|].
    cbn [mbind option_bind]. rewrite Hkeys. eexists. split; [reflexivity|].
    intros k v. rewrite map_lookup_filter_Some. cbn [fst]. tauto.
  - intros Hnot.
    destruct (decide (types = Some "all")) as [->|_]; [exfalso; set_solver|].
    destruct types as [s|]; [|reflexivity]. cbn [mbind option_bind].
    destruct (propertiesByTypes !! s) as [keys|] eqn:Hkeys; [|reflexivity].
    exfalso. apply propertiesByTypes_keys in Hkeys. apply Hnot.
    apply elem_of_cons. right.
    repeat (apply elem_of_cons in Hkeys as [->|Hkeys]; [set_solver|]).
    now apply elem_of_nil in Hkeys.
Qed.

Lemma getPropertyStruct_types_witness :
  getPropertyStruct (Some "thermal") example_cell
  = (Raised (KeyError (Some "thermal")), example_cell).
Proof.
  destruct (getPropertyStruct_types (Some "thermal") example_cell)
    as (_ & _ & _ & H).
  apply H. intros Hin.
  repeat (apply elem_of_cons in Hin as [Hin|Hin]; [discriminate Hin|]).
  now apply elem_of_nil in Hin.
Defined.

(** The cell that a construction returned has no integrated property
    yet, and no list object. *)
Lemma unitCell_new_returned (py_eval : string -> outcome pyval)
    (ID_ name_ : string) (c : Q) (kw : kwargs) (w' : world) :
  unitCell_new py_eval ID_ name_ c kw = (Returned tt, w') ->
  _intHeatCapacity (self w') = None /\ intHeatCapacityStr (self w') = None
  /\ _intLinThermExp (self w') = None /\ intLinThermExpStr (self w') = None
  /\ atoms (self w') = [] /\ heap w' = ∅ /\ next w' = 1%positive.
Proof.
  intros H. unfold_method unitCell_new H.
  apply init_returned in H as (w1 & n & Hp & _ & _ & _ & _ & ->).
  pose proof Hp as Hp'.
  apply init_properties_returned in Hp'
    as (a1 & a2 & a3 & a4 & H1 & H2 & H3 & H4 & _ & _ & _ & _ & _ & _ & _ & _ & Hc & _).
  pose proof (init_properties_runs py_eval ID_ name_ c kw new_world _ _ _ _
                Hc H1 H2 H3 H4) as Hq.
  assert (Hw : snd (init_properties py_eval ID_ name_ c kw new_world) = w1)
    by (rewrite Hp; reflexivity).
  rewrite Hq in Hw. cbn [snd] in Hw. subst w1. simpl_cell.
  repeat split; reflexivity.
Qed.

Lemma getPropertyStruct_runs (s : string) (keys : list string) (w : world) :
  s <> "all" -> propertiesByTypes !! s = Some keys ->
  getPropertyStruct (Some s) w
  = (Returned (filter (fun kv : string * attr => kv.1 ∈ keys) (vars (self w))), w).
Proof.
  intros Hs Hkeys. unfold getPropertyStruct. rewrite run_gets.
  destruct (decide (Some s = Some "all")) as [Heq|_]; [congruence|].
  cbn [mbind option_bind]. now rewrite Hkeys.
Qed.

(** X19: the texts of the integrals are in the projections only once the
    integrals exist. The projection on ['heat'] has the key
    [intHeatCapacityStr] exactly when the object has the attribute, and the
    projection on ['phonon'] the key [intLinThermExpStr] likewise. A cell
    that was just constructed has neither; after the first read of
    [intHeatCapacity] the projection on ['heat'] has the key, with the list
    of texts that the read made. *)
Theorem getPropertyStruct_integrals (py_eval : string -> outcome pyval)
    (integrate : string -> outcome (pyval * string)) (w : world) :
  (exists S S',
     getPropertyStruct (Some "heat") w = (Returned S, w)
     /\ S !! "intHeatCapacityStr" = ARef <$> intHeatCapacityStr (self w)
     /\ getPropertyStruct (Some "phonon") w = (Returned S', w)
     /\ S' !! "intLinThermExpStr" = ARef <$> intLinThermExpStr (self w))
  /\ (forall ID_ name_ c kw,
        unitCell_new py_eval ID_ name_ c kw = (Returned tt, w) ->
        exists S S',
          getPropertyStruct (Some "heat") w = (Returned S, w)
          /\ S !! "intHeatCapacityStr" = None
          /\ getPropertyStruct (Some "phonon") w = (Returned S', w)
          /\ S' !! "intLinThermExpStr" = None)
  /\ ((forall l, ~ heat_cached l w) ->
      exists l w1 S,
        intHeatCapacity_get integrate w = (Returned l, w1)
        /\ getPropertyStruct (Some "heat") w1 = (Returned S, w1)
        /\ S !! "intHeatCapacityStr" = Some (ARef (Pos.succ (next w)))).
Proof.
  assert (Hheat : forall w0,
            exists S, getPropertyStruct (Some "heat") w0 = (Returned S, w0)
              /\ S !! "intHeatCapacityStr" = ARef <$> intHeatCapacityStr (self w0)).
  { intros w0. eexists. split.
    - apply getPropertyStruct_runs; [discriminate|]. vm_compute. reflexivity.
    - destruct (vars_lazy (self w0)) as (_ & Hs & _).
      destruct (intHeatCapacityStr (self w0)) as [l|]; cbn [fmap option_fmap option_map] in *.
      + apply map_lookup_filter_Some. split; [exact Hs|]. cbn [fst]. repeat constructor.
      + apply map_lookup_filter_None. left. exact Hs. }
  assert (Hphonon : forall w0,
            exists S, getPropertyStruct (Some "phonon") w0 = (Returned S, w0)
              /\ S !! "intLinThermExpStr" = ARef <$> intLinThermExpStr (self w0)).
  { intros w0. eexists. split.
    - apply getPropertyStruct_runs; [discriminate|]. vm_compute. reflexivity.
    - destruct (vars_lazy (self w0)) as (_ & _ & _ & Hs & _).
      destruct (intLinThermExpStr (self w0)) as [l|]; cbn [fmap option_fmap option_map] in *.
      + apply map_lookup_filter_Some. split; [exact Hs|]. cbn [fst]. repeat constructor.
      + apply map_lookup_filter_None. left. exact Hs. }
  split; [|split].
  - destruct (Hheat w) as (S & H1 & H2), (Hphonon w) as (S' & H3 & H4).
    exists S, S'. auto.
  - intros ID_ name_ c kw Hnew.
    apply unitCell_new_returned in Hnew as (_ & Hh & _ & Hl & _).
    destruct (Hheat w) as (S & H1 & H2), (Hphonon w) as (S' & H3 & H4).
    rewrite Hh in H2. rewrite Hl in H4. exists S, S'. auto.
  - intros Hno. pose proof (intHeatCapacity_get_runs integrate w Hno) as Hrun.
    eexists _, _. destruct (Hheat (snd (intHeatCapacity_get integrate w)))
      as (S & H1 & H2).
    rewrite Hrun in H1, H2. cbn [snd self] in H1, H2.
    exists S. split; [exact Hrun|]. split; [exact H1|].
    rewrite H2. destruct (self w). reflexivity.
Qed.

Lemma getPropertyStruct_integrals_witness :
  exists S,
    getPropertyStruct (Some "heat") example_cell = (Returned S, example_cell)
    /\ S !! "intHeatCapacityStr" = None.
Proof.
  destruct (getPropertyStruct_integrals example_eval example_integrate example_cell)
    as (_ & H & _).
  destruct (H "uc" "cell" 1 no_kwargs) as (S & S' & H1 & H2 & _).
  - vm_compute. reflexivity.
  - exists S. auto.
Defined.

(** ** The identifiers of the atoms *)


Lemma getAtomIDs_loop (w : world) (k : nat) : forall (i : nat) (acc : list string),
  (i + k <= length (atoms (self w)))%nat ->
  fold_each (seq i k) acc (fun IDs j =>
    l ← gets atoms;
    match l !! j with
    | Some (a, _, _) =>
        mret (if decide (atom_ID a ∈ IDs) then IDs else IDs ++ [atom_ID a])
    | None => raise IndexError
    end) w
  = (Returned (first_seen acc (atom_IDs (take k (drop i (atoms (self w)))))), w).
Proof.
  induction k as [|k IH]; intros i acc Hlen; cbn [seq fold_each].
  - reflexivity.
  - rewrite run_bind, run_gets.
    destruct (lookup_lt_is_Some_2 (atoms (self w)) i) as [[[a pos] text] Hi]; [lia|].
    rewrite Hi. cbn [mret M_ret]. rewrite IH by lia.
    rewrite (drop_S _ _ _ Hi). cbn [take atom_IDs fmap list_fmap fst].
    reflexivity.
Qed.


Lemma getAtomIDs_runs (w : world) :
  (numAtoms (self w) <= length (atoms (self w)))%nat ->
  getAtomIDs w
  = (Returned (first_seen [] (atom_IDs (take (numAtoms (self w)) (atoms (self w))))), w).
Proof.
  intros Hn. unfold getAtomIDs. rewrite run_gets.
  rewrite getAtomIDs_loop by lia. now rewrite drop_0.
Qed.



(** X21: an atom that is added shows in the identifiers when its
    identifier is new. After [addAtom] returned on a well-formed cell,
    [getAtomIDs] returns what it returned before, with the identifier of
    the atom behind when it was not among them. *)
Theorem getAtomIDs_after_addAtom (py_eval : string -> outcome pyval) (a : atom)
    (position : pyval) (w w' : world) (ids : list string) :
  well_formed w ->
  addAtom py_eval a position w = (Returned tt, w') ->
  getAtomIDs w = (Returned ids, w) ->
  getAtomIDs w'
  = (Returned (if decide (atom_ID a ∈ ids) then ids else ids ++ [atom_ID a]), w').
Proof.
  intros Hwf Hadd Hids.
  destruct (addAtom_keeps_well_formed _ _ _ _ _ Hwf Hadd)
    as ((Hn' & _) & pos & text & evs & _ & Hatoms).
  destruct Hwf as (Hn & _).
  rewrite getAtomIDs_runs in Hids by lia. rewrite getAtomIDs_runs by lia.
  apply (f_equal fst) in Hids. cbn [fst] in Hids. injection Hids as Hids.
  rewrite Hn, firstn_all in Hids. rewrite Hn', firstn_all, Hatoms.
  unfold atom_IDs, first_seen in *. rewrite fmap_app, foldl_app, Hids.
  reflexivity.
Qed.

Lemma getAtomIDs_after_addAtom_witness :
  getAtomIDs example_still_cell = (Returned ["O"], example_still_cell).
Proof.
  assert (Hwf : well_formed example_cell).
  { split; [vm_compute; reflexivity|]. split; [vm_compute; discriminate|].
    vm_compute. lia. }
  assert (Hadd : addAtom example_eval example_atom (VFloat (1 # 2)) example_cell
                 = (Returned tt, example_still_cell))
    by (vm_compute; reflexivity).
  assert (Hids : getAtomIDs example_cell = (Returned [], example_cell))
    by (vm_compute; reflexivity).
  exact (getAtomIDs_after_addAtom example_eval example_atom (VFloat (1 # 2))
           example_cell example_still_cell [] Hwf Hadd Hids).
Defined.

(** ** The positions of the atoms *)

Section Positions.

Variable py_apply : pyval -> Q -> outcome Q.



End Positions.






(** ** The acoustic impedance at the edges *)


